(** * Diabetes Risk Awareness Tool: the decision logic of [app.py]

    A shallow embedding of the Streamlit script [src/app.py]: the BMI
    computation, the two medical safety rules, the risk banding, the
    meter, and the ranking of the feature attributions.  Python floats
    are IEEE binary64 numbers, modelled by Rocq's primitive [float];
    Python ints are [Z].  The script is straight-line code over module
    level variables; it is embedded as a program in a state-and-error
    monad whose state holds those variables and the sequence of calls
    made to Streamlit, to the model and to the explainer. *)

From Stdlib Require Import ZArith List String Bool Lia Floats Sorted Permutation.
From ExtLib Require Import Structures.Monad Structures.MonadState Structures.MonadExc.
From ExtLib Require Import Data.Monads.StateMonad Data.Monads.EitherMonad.
Import ListNotations.
Import MonadNotation.

Set Warnings "-inexact-float".

Local Open Scope Z_scope.
Local Open Scope monad_scope.

#[local] Existing Instance Monad_stateT.

(* ===================================================================== *)
(** ** Python built-ins used by the script *)
(* ===================================================================== *)

Module Py.

(** The exceptions the modelled operations can raise. *)
Inductive exn : Type :=
| ZeroDivisionError
| NameError (name : string).

(** [float(z)] for an int: the nearest binary64 number.  The conversion
    goes through a 63-bit integer and is meant for [|z| < 2^63]; it is
    exact for [|z| <= 2^53], which covers every widget range of the
    script. *)
Definition float_of_int (z : Z) : float :=
  if z <? 0 then PrimFloat.opp (PrimFloat.of_uint63 (Uint63.of_Z (- z)))
  else PrimFloat.of_uint63 (Uint63.of_Z z).

(** [a / b] on two ints: true division, a float, [ZeroDivisionError]
    when [b] is 0.  CPython rounds the exact quotient once; dividing the
    converted operands is the same for [|a|, |b| <= 2^53], where the
    conversions are exact. *)
Definition int_truediv (a b : Z) : exn + float :=
  if b =? 0 then inl ZeroDivisionError
  else inr (PrimFloat.div (float_of_int a) (float_of_int b)).

(** [a / y] with [a] an int and [y] a float: [a] is converted first
    (exactly, for [|a| <= 2^53]). *)
Definition int_float_truediv (a : Z) (y : float) : exn + float :=
  if PrimFloat.eqb y 0%float then inl ZeroDivisionError
  else inr (PrimFloat.div (float_of_int a) y).

(** [x ** 2] on a float: the C library's [pow(x, 2.0)], taken to be the
    correctly rounded square [x * x].  A C library may return a neighbour
    of that float for some arguments; the examples at the end show that
    the BMI of the two documented cases does not depend on it. *)
Definition float_pow2 (x : float) : float := PrimFloat.mul x x.

(** Quotient of [a] by [2^k], rounded to the nearest integer, ties to
    the even one. *)
Definition div_pow2_half_even (a k : Z) : Z :=
  let d := Z.shiftl 1 k in
  let q := a / d in
  let r := a mod d in
  match 2 * r ?= d with
  | Lt => q
  | Gt => q + 1
  | Eq => if Z.even q then q else q + 1
  end.

(** [round(x, 2)] on a float.  CPython prints the exact binary value
    with two correctly rounded decimals (ties to even) and reads the
    decimal string back as the nearest float.  Non-finite values and
    zeros round to themselves.  For a finite [x = m * 2^e]: if [e >= 0]
    then [x] is an integer and is returned; otherwise
    [n = round_half_even (100 * m / 2^-e)] and the result is the float
    nearest to [n / 100], which is the float division of [n] by [100]
    when [n] converts exactly ([n < 2^53]) and [x] itself beyond that,
    where neighbouring floats are more than 0.01 apart. *)
Definition round2 (x : float) : float :=
  match Prim2SF x with
  | S754_finite s m e =>
      if 0 <=? e then x
      else
        let n := div_pow2_half_even (100 * Z.pos m) (- e) in
        if n <? 2 ^ 53 then
          let r := PrimFloat.div (float_of_int n) (float_of_int 100) in
          if s then PrimFloat.opp r else r
        else x
  | _ => x
  end.

(** [abs(x)] on a float. *)
Definition abs (x : float) : float := PrimFloat.abs x.

(** Comparisons of a float with an int literal. *)
Definition float_lt_int (x : float) (n : Z) : bool :=
  PrimFloat.ltb x (float_of_int n).
Definition float_gt_int (x : float) (n : Z) : bool :=
  PrimFloat.ltb (float_of_int n) x.

(** A number held by a variable that is assigned both floats and int
    literals. *)
Inductive number : Type :=
| Int (z : Z)
| Float (f : float).

Definition number_lt_int (x : number) (n : Z) : bool :=
  match x with
  | Int z => z <? n
  | Float f => float_lt_int f n
  end.

Definition number_gt_int (x : number) (n : Z) : bool :=
  match x with
  | Int z => n <? z
  | Float f => float_gt_int f n
  end.

Section Sorted.
Context {A : Type}.
(** [ltk x y]: the key of [x] is [<] the key of [y]. *)
Variable ltk : A -> A -> bool.

(** [count_run]: the length of the run at the start of the list and
    whether it is descending.  A run is either ascending (no element is
    less than the one before it) or strictly descending (every element is
    less than the one before it). *)
Fixpoint run_ascending (prev : A) (l : list A) : nat :=
  match l with
  | [] => 0%nat
  | x :: l' => if ltk x prev then 0%nat else S (run_ascending x l')
  end.

Fixpoint run_descending (prev : A) (l : list A) : nat :=
  match l with
  | [] => 0%nat
  | x :: l' => if ltk x prev then S (run_descending x l') else 0%nat
  end.

Definition count_run (l : list A) : nat * bool :=
  match l with
  | [] => (0%nat, false)
  | [a] => (1%nat, false)
  | a :: b :: l' =>
      if ltk b a then (S (S (run_descending b l')), true)
      else (S (S (run_ascending b l')), false)
  end.

(** The binary search of [binarysort] for the place of [pivot] in
    [a[l:r]]: [r] moves down when [pivot < a[p]], else [l] moves up.
    [fuel] bounds the number of halvings. *)
Fixpoint bisect (fuel : nat) (pivot : A) (a : list A) (l r : nat) : nat :=
  match fuel with
  | O => l
  | S fuel' =>
      if (l <? r)%nat then
        let p := (l + (r - l) / 2)%nat in
        if ltk pivot (nth p a pivot) then bisect fuel' pivot a l p
        else bisect fuel' pivot a (S p) r
      else l
  end.

(** One step of [binarysort]: [pivot] is inserted into the sorted prefix
    [a] at the place the binary search finds. *)
Definition binary_insert (pivot : A) (a : list A) : list A :=
  let k := bisect (List.length a) pivot a 0%nat (List.length a) in
  firstn k a ++ pivot :: skipn k a.

(** [binarysort]: the elements after the run are inserted one by one. *)
Definition binarysort (run rest : list A) : list A :=
  fold_left (fun acc x => binary_insert x acc) rest run.

(** The stable ascending sort of [list.sort] as CPython (through 3.12)
    runs it on a list of fewer than 64 elements, where the minimal run
    length is the length of the list: the run at the start of the list
    is found, reversed if it is descending, and extended to the whole
    list by binary insertion.  Longer lists are merged from several runs;
    on keys that form a weak order every stable sort gives the same list,
    which is then this one. *)
Definition stable_sort (l : list A) : list A :=
  let (n, descending) := count_run l in
  let run := firstn n l in
  binarysort (if descending then rev run else run) (skipn n l).

(** [sorted(l, key=..., reverse=True)]: CPython reverses the list,
    sorts it stably in ascending key order, and reverses the result,
    so that elements with equal keys keep their original order. *)
Definition sorted_reverse (l : list A) : list A :=
  rev (stable_sort (rev l)).

(** Insertion by a linear scan, the reference the binary insertion is
    compared with below: [x] goes before the first element whose key is
    greater, hence after every element with an equal key. *)
Fixpoint insert_right (x : A) (l : list A) : list A :=
  match l with
  | [] => [x]
  | y :: l' => if ltk x y then x :: l else y :: insert_right x l'
  end.

Definition insertion_sort (l : list A) : list A :=
  fold_left (fun acc x => insert_right x acc) l [].
End Sorted.

End Py.

(* ===================================================================== *)
(** ** The script's data *)
(* ===================================================================== *)

(** The values returned by the [st.number_input] widgets.  Those created
    with int bounds return ints, the family-history widget (bounds
    [0.0, 3.0]) returns a float. *)
Record Inputs : Type := {
  age : Z;
  pregnancies : Z;
  height_cm : Z;
  weight_kg : Z;
  glucose : Z;
  blood_pressure : Z;
  skin_thickness : Z;
  insulin : Z;
  dpf : float
}.

(** The declared minimum and maximum of every widget. *)
Definition in_domain (i : Inputs) : Prop :=
  1 <= age i <= 120 /\
  0 <= pregnancies i <= 20 /\
  100 <= height_cm i <= 220 /\
  30 <= weight_kg i <= 200 /\
  50 <= glucose i <= 300 /\
  40 <= blood_pressure i <= 200 /\
  0 <= skin_thickness i <= 100 /\
  0 <= insulin i <= 900 /\
  PrimFloat.leb 0%float (dpf i) = true /\ PrimFloat.leb (dpf i) 3%float = true.

(** The module-level variables the script assigns.  [None] is a name not
    bound yet; a run may start from any binding left by earlier code. *)
Record Globals : Type := {
  g_height_m : option float;
  g_bmi : option float;
  g_user_data : option (list float);
  g_medically_low_risk : option bool;
  g_probability : option Py.number;
  g_risk_level : option string;
  g_impacts : option (list float);
  g_explanation : option (list (string * float))
}.

Definition no_globals : Globals :=
  {| g_height_m := None; g_bmi := None; g_user_data := None;
     g_medically_low_risk := None; g_probability := None;
     g_risk_level := None; g_impacts := None; g_explanation := None |}.

(** The calls the script makes to its collaborators, in order: the risk
    model, the attribution engine, and the Streamlit output functions. *)
Inductive call : Type :=
| predict_proba_call (x : list float)
| explainer_call (x : list float)
| st_caption_bmi (b : float)
| st_caption (s : string)
| st_subheader (s : string)
| st_markdown (s : string)
| st_progress (v : float)
| st_success (s : string)
| st_warning (s : string)
| st_error (s : string)
| st_write (s : string)
| st_info (s : string).

Record World : Type := {
  vars : Globals;
  calls : list call
}.

(** Script programs: state [World], errors [Py.exn]. *)
Definition M : Type -> Type := stateT World (sum Py.exn).

Definition liftE {A : Type} (r : Py.exn + A) : M A :=
  match r with
  | inl e => raise e
  | inr a => ret a
  end.

Definition emit (c : call) : M unit :=
  w <- get ;;
  put {| vars := vars w; calls := calls w ++ [c] |}.

Definition assign (f : Globals -> Globals) : M unit :=
  w <- get ;;
  put {| vars := f (vars w); calls := calls w |}.

Definition read {A : Type} (name : string) (f : Globals -> option A) : M A :=
  w <- get ;;
  match f (vars w) with
  | Some v => ret v
  | None => raise (Py.NameError name)
  end.

Definition set_height_m (v : float) (g : Globals) : Globals :=
  {| g_height_m := Some v; g_bmi := g_bmi g; g_user_data := g_user_data g;
     g_medically_low_risk := g_medically_low_risk g;
     g_probability := g_probability g; g_risk_level := g_risk_level g;
     g_impacts := g_impacts g; g_explanation := g_explanation g |}.

Definition set_bmi (v : float) (g : Globals) : Globals :=
  {| g_height_m := g_height_m g; g_bmi := Some v; g_user_data := g_user_data g;
     g_medically_low_risk := g_medically_low_risk g;
     g_probability := g_probability g; g_risk_level := g_risk_level g;
     g_impacts := g_impacts g; g_explanation := g_explanation g |}.

Definition set_user_data (v : list float) (g : Globals) : Globals :=
  {| g_height_m := g_height_m g; g_bmi := g_bmi g; g_user_data := Some v;
     g_medically_low_risk := g_medically_low_risk g;
     g_probability := g_probability g; g_risk_level := g_risk_level g;
     g_impacts := g_impacts g; g_explanation := g_explanation g |}.

Definition set_medically_low_risk (v : bool) (g : Globals) : Globals :=
  {| g_height_m := g_height_m g; g_bmi := g_bmi g; g_user_data := g_user_data g;
     g_medically_low_risk := Some v;
     g_probability := g_probability g; g_risk_level := g_risk_level g;
     g_impacts := g_impacts g; g_explanation := g_explanation g |}.

Definition set_probability (v : Py.number) (g : Globals) : Globals :=
  {| g_height_m := g_height_m g; g_bmi := g_bmi g; g_user_data := g_user_data g;
     g_medically_low_risk := g_medically_low_risk g;
     g_probability := Some v; g_risk_level := g_risk_level g;
     g_impacts := g_impacts g; g_explanation := g_explanation g |}.

Definition set_risk_level (v : string) (g : Globals) : Globals :=
  {| g_height_m := g_height_m g; g_bmi := g_bmi g; g_user_data := g_user_data g;
     g_medically_low_risk := g_medically_low_risk g;
     g_probability := g_probability g; g_risk_level := Some v;
     g_impacts := g_impacts g; g_explanation := g_explanation g |}.

Definition set_impacts (v : list float) (g : Globals) : Globals :=
  {| g_height_m := g_height_m g; g_bmi := g_bmi g; g_user_data := g_user_data g;
     g_medically_low_risk := g_medically_low_risk g;
     g_probability := g_probability g; g_risk_level := g_risk_level g;
     g_impacts := Some v; g_explanation := g_explanation g |}.

Definition set_explanation (v : list (string * float)) (g : Globals) : Globals :=
  {| g_height_m := g_height_m g; g_bmi := g_bmi g; g_user_data := g_user_data g;
     g_medically_low_risk := g_medically_low_risk g;
     g_probability := g_probability g; g_risk_level := g_risk_level g;
     g_impacts := g_impacts g; g_explanation := Some v |}.

(* ===================================================================== *)
(** ** The script *)
(* ===================================================================== *)

Local Open Scope string_scope.
Local Open Scope Z_scope.

(** [for x in l: body x]. *)
Fixpoint for_each {A : Type} (l : list A) (body : A -> M unit) : M unit :=
  match l with
  | [] => ret tt
  | x :: l' => body x ;; for_each l' body
  end.

(** The key comparison of [sorted(..., key=lambda x: abs(x[1]))]. *)
Definition abs_impact_lt (x y : string * float) : bool :=
  PrimFloat.ltb (Py.abs (snd x)) (Py.abs (snd y)).

(** The [if value > 0] test of the attribution loop: [true] is the
    "stronger influence" message, [false] the "less influence" one. *)
Definition stronger_influence (value : float) : bool :=
  Py.float_gt_int value 0.

(** The two f-strings of the attribution loop (lines 169 and 171). *)
Definition stronger_text (feature : string) : string :=
  "• " ++ feature ++ " had a stronger influence".
Definition less_text (feature : string) : string :=
  "• " ++ feature ++ " had less influence".

Definition influence_message (feature : string) (value : float) : string :=
  if stronger_influence value then stronger_text feature else less_text feature.

(** The right-hand sides of the two BMI assignments (lines 56 and 57). *)
Definition height_m_expr (height_cm : Z) : Py.exn + float :=
  Py.int_truediv height_cm 100.

Definition bmi_expr (weight_kg : Z) (height_m : float) : Py.exn + float :=
  match Py.int_float_truediv weight_kg (Py.float_pow2 height_m) with
  | inl e => inl e
  | inr q => inr (Py.round2 q)
  end.

(** The BMI as a function of the two widget values. *)
Definition bmi (height_cm weight_kg : Z) : Py.exn + float :=
  match height_m_expr height_cm with
  | inl e => inl e
  | inr hm => bmi_expr weight_kg hm
  end.

(** The feature row built on lines 89-98: [np.array] turns the ints into
    floats; the order is the one written in the script. *)
Definition user_data (i : Inputs) (bmi : float) : list float :=
  [ Py.float_of_int (pregnancies i); Py.float_of_int (glucose i);
    Py.float_of_int (blood_pressure i); Py.float_of_int (skin_thickness i);
    Py.float_of_int (insulin i); dpf i; bmi; Py.float_of_int (age i) ].

(** Safety rule 1 (lines 101-105): the medically-low-risk predicate. *)
Definition medically_low_risk (i : Inputs) (bmi : float) : bool :=
  (glucose i <? 100) && PrimFloat.eqb (dpf i) 0%float && Py.float_lt_int bmi 32.

(** Safety rule 2 (line 110): the condition of the age bias guard. *)
Definition age_bias_guard (probability : Py.number) (i : Inputs) : bool :=
  Py.number_gt_int probability 70 && (glucose i <? 110)
  && PrimFloat.eqb (dpf i) 0%float.

Section Script.

(** The frozen collaborators, loaded at the top of the script:
    [model.predict_proba(x)[0][1]], [explainer(x).values[0]], and
    [X.columns], the feature columns of the reference dataset. *)
Variable predict_proba : list float -> float.
Variable explainer : list float -> list float.
Variable columns : list string.

(** Line 107: the positive-class probability as a percentage. *)
Definition model_probability (x : list float) : Py.number :=
  Py.Float (PrimFloat.mul (predict_proba x) (Py.float_of_int 100)).

(** Lines 55-58: the BMI, recomputed on every run. *)
Definition bmi_calculation (i : Inputs) : M unit :=
  hm <- liftE (height_m_expr (height_cm i)) ;;
  assign (set_height_m hm) ;;
  hm <- read "height_m" g_height_m ;;
  b <- liftE (bmi_expr (weight_kg i) hm) ;;
  assign (set_bmi b) ;;
  b <- read "bmi" g_bmi ;;
  emit (st_caption_bmi b).

(** Lines 88-184: the body of [if st.button("Check Diabetes Risk")]. *)
Definition check_diabetes_risk (i : Inputs) : M unit :=
  b <- read "bmi" g_bmi ;;
  assign (set_user_data (user_data i b)) ;;
  (* SAFETY RULE 1: Medically Low Risk *)
  b <- read "bmi" g_bmi ;;
  assign (set_medically_low_risk (medically_low_risk i b)) ;;
  x <- read "user_data" g_user_data ;;
  emit (predict_proba_call x) ;;
  assign (set_probability (model_probability x)) ;;
  (* SAFETY RULE 2: Age Bias Guard *)
  probability <- read "probability" g_probability ;;
  (if age_bias_guard probability i
   then assign (set_probability (Py.Int 55))
   else ret tt) ;;
  (* Risk Band Logic *)
  medically_low_risk <- read "medically_low_risk" g_medically_low_risk ;;
  probability <- read "probability" g_probability ;;
  (if medically_low_risk then assign (set_risk_level "LOW")
   else if Py.number_lt_int probability 35 then assign (set_risk_level "LOW")
   else if Py.number_lt_int probability 70 then assign (set_risk_level "MODERATE")
   else assign (set_risk_level "HIGH")) ;;
  (* Result *)
  emit (st_subheader "📊 Risk Assessment") ;;
  emit (st_markdown "### 📈 Risk Meter") ;;
  risk_level <- read "risk_level" g_risk_level ;;
  (if String.eqb risk_level "LOW" then
     emit (st_progress 0.25%float) ;;
     emit (st_success "🟢 Low diabetes risk") ;;
     emit (st_caption "Low risk zone")
   else if String.eqb risk_level "MODERATE" then
     emit (st_progress 0.60%float) ;;
     emit (st_warning "🟡 Moderate diabetes risk") ;;
     emit (st_caption "Moderate risk zone")
   else
     emit (st_progress 0.90%float) ;;
     emit (st_error "🔴 High diabetes risk") ;;
     emit (st_caption "High risk zone")) ;;
  (* Text Explanation *)
  medically_low_risk <- read "medically_low_risk" g_medically_low_risk ;;
  (if medically_low_risk then
     emit (st_write ("Your blood sugar level, body weight range, and lack of family history "
                     ++ "suggest a low diabetes risk based on common medical guidelines."))
   else
     emit (st_write ("This result is based on patterns observed in historical health data. "
                     ++ "It does not confirm or rule out diabetes.")) ;;
     (* Explainable AI *)
     emit (st_subheader "🔍 What influenced this result?") ;;
     x <- read "user_data" g_user_data ;;
     emit (explainer_call x) ;;
     assign (set_impacts (explainer x)) ;;
     impacts <- read "impacts" g_impacts ;;
     assign (set_explanation
       (Py.sorted_reverse abs_impact_lt (combine columns impacts))) ;;
     explanation <- read "explanation" g_explanation ;;
     for_each (firstn 3 explanation) (fun '(feature, value) =>
       emit (st_info (influence_message feature value)))) ;;
  (* Guidance *)
  emit (st_subheader "📌 What can you do next?") ;;
  emit (st_write ("- Maintain a balanced diet and regular physical activity" ++ String (Ascii.ascii_of_nat 10)
                  ("- Monitor blood sugar levels if advised" ++ String (Ascii.ascii_of_nat 10)
                  "- Consult a healthcare professional for clarity"))) ;;
  emit (st_caption "⚠️ This tool is for awareness and learning purposes only.").

(** The BMI block (lines 55-58) followed by the body of the button
    (lines 88-184): the code that decides and explains.  The section
    headers and the glucose hint shown between the two are part of
    [page] below. *)
Definition script (i : Inputs) : M unit :=
  bmi_calculation i ;;
  check_diabetes_risk i.

(** One evaluation: the run started from the variable bindings [g],
    giving the final bindings and the calls made, or the exception. *)
Definition evaluate (i : Inputs) (g : Globals) : Py.exn + World :=
  match runStateT (script i) {| vars := g; calls := [] |} with
  | inl e => inl e
  | inr (_, w) => inr w
  end.

End Script.

(* ===================================================================== *)
(** ** Observations on a finished evaluation *)
(* ===================================================================== *)

Definition is_explainer_call (c : call) : bool :=
  match c with
  | explainer_call _ => true
  | _ => false
  end.

(** Whether the attribution engine was called during the evaluation. *)
Definition attribution_engine_invoked (w : World) : bool :=
  existsb is_explainer_call (calls w).

(** The values passed to [st.progress], in order. *)
Definition meter_values (w : World) : list float :=
  flat_map (fun c => match c with st_progress v => [v] | _ => [] end) (calls w).

(** The attribution statements shown with [st.info], in order. *)
Definition attribution_statements (w : World) : list string :=
  flat_map (fun c => match c with st_info s => [s] | _ => [] end) (calls w).

(** The ranking computed by the evaluation: the [explanation] variable
    when the explanation branch ran. *)
Definition attribution_ranking (w : World) : option (list (string * float)) :=
  match g_medically_low_risk (vars w) with
  | Some false => g_explanation (vars w)
  | _ => None
  end.

(** What an evaluation lets the user see and what later code can read of
    the decision: the band, the probability, the ranking, and every call
    made. *)
Definition observation (r : Py.exn + World)
  : Py.exn + (option string * option Py.number
              * option (list (string * float)) * list call) :=
  match r with
  | inl e => inl e
  | inr w => inr (g_risk_level (vars w), g_probability (vars w),
                  attribution_ranking w, calls w)
  end.

(** The three bands. *)
Definition is_band (s : string) : Prop :=
  s = "LOW" \/ s = "MODERATE" \/ s = "HIGH".

(** A list with the original position of every element. *)
Definition indexed {A : Type} (l : list A) : list (nat * A) :=
  combine (seq 0 (List.length l)) l.

(** A key comparison lifted to elements carrying their position. *)
Definition lti {A : Type} (ltk : A -> A -> bool) (p q : nat * A) : bool :=
  ltk (snd p) (snd q).

(** [p] comes before [q] in a descending stable order: the key of [p] is
    greater, or it is not smaller and [p] was earlier in the input. *)
Definition ranked_before {A : Type} (ltk : A -> A -> bool) (p q : nat * A) : Prop :=
  ltk (snd q) (snd p) = true \/
  (ltk (snd p) (snd q) = false /\ (fst p < fst q)%nat).

(** Ascending in the keys: no element is less than an earlier one. *)
Definition ascending {A : Type} (ltk : A -> A -> bool) (l : list A) : Prop :=
  StronglySorted (fun a b => ltk b a = false) l.

(** The same for attributions, with the IEEE absolute value of the
    contributions: [|value of p| > |value of q|], or the two are equal
    and [p] comes first in the order of the dataset's columns. *)
Definition outranks (p q : nat * (string * float)) : Prop :=
  PrimFloat.ltb (PrimFloat.abs (snd (snd q))) (PrimFloat.abs (snd (snd p))) = true \/
  (PrimFloat.eqb (PrimFloat.abs (snd (snd p))) (PrimFloat.abs (snd (snd q))) = true /\
   (fst p < fst q)%nat).

(** The pure reading of the script's decision, against which the run of
    the script is proved below. *)
Definition effective_probability (raw : Py.number) (i : Inputs) : Py.number :=
  if age_bias_guard raw i then Py.Int 55 else raw.

Definition band_of (mlr : bool) (probability : Py.number) : string :=
  if mlr then "LOW"
  else if Py.number_lt_int probability 35 then "LOW"
  else if Py.number_lt_int probability 70 then "MODERATE"
  else "HIGH".

Definition meter_calls (band : string) : list call :=
  if String.eqb band "LOW" then
    [st_progress 0.25%float; st_success "🟢 Low diabetes risk";
     st_caption "Low risk zone"]
  else if String.eqb band "MODERATE" then
    [st_progress 0.60%float; st_warning "🟡 Moderate diabetes risk";
     st_caption "Moderate risk zone"]
  else
    [st_progress 0.90%float; st_error "🔴 High diabetes risk";
     st_caption "High risk zone"].

Definition attribution_calls (expl : list (string * float)) : list call :=
  map (fun '(feature, value) => st_info (influence_message feature value))
      (firstn 3 expl).

(** Every call of one run, given the values the run computes. *)
Definition script_calls (b : float) (x : list float) (mlr : bool)
           (band : string) (expl : list (string * float)) : list call :=
  [st_caption_bmi b; predict_proba_call x;
   st_subheader "📊 Risk Assessment"; st_markdown "### 📈 Risk Meter"]
  ++ meter_calls band
  ++ (if mlr then
        [st_write ("Your blood sugar level, body weight range, and lack of family history "
                   ++ "suggest a low diabetes risk based on common medical guidelines.")]
      else
        [st_write ("This result is based on patterns observed in historical health data. "
                   ++ "It does not confirm or rule out diabetes.");
         st_subheader "🔍 What influenced this result?";
         explainer_call x]
        ++ attribution_calls expl)
  ++ [st_subheader "📌 What can you do next?";
      st_write ("- Maintain a balanced diet and regular physical activity"
                ++ String (Ascii.ascii_of_nat 10)
                     ("- Monitor blood sugar levels if advised"
                      ++ String (Ascii.ascii_of_nat 10)
                           "- Consult a healthcare professional for clarity"));
      st_caption "⚠️ This tool is for awareness and learning purposes only."].

(* ===================================================================== *)
(** ** The order of binary64 numbers *)
(* ===================================================================== *)

(** A float that is not NaN. *)
Definition is_number (x : float) : Prop := PrimFloat.is_nan x = false.

(** Position of a non-NaN value in a lexicographic order on triples:
    class (infinities, negative, zero, positive), then exponent, then
    mantissa, the last two negated for negative numbers. *)
Definition rank (x : spec_float) : Z * Z * Z :=
  match x with
  | S754_nan => (0, 0, 0)
  | S754_zero _ => (0, 0, 0)
  | S754_infinity s => (if s then -2 else 2, 0, 0)
  | S754_finite s m e => if s then (-1, - e, Z.neg m) else (1, e, Z.pos m)
  end.

Definition lex_compare (a b : Z * Z * Z) : comparison :=
  let '(a1, a2, a3) := a in
  let '(b1, b2, b3) := b in
  match a1 ?= b1 with
  | Eq => match a2 ?= b2 with
          | Eq => a3 ?= b3
          | c => c
          end
  | c => c
  end.

(* ===================================================================== *)
(** ** Sample inputs *)
(* ===================================================================== *)

(** The widgets' default values (glucose 120): neither safety rule applies. *)
Definition default_person : Inputs :=
  {| age := 30; pregnancies := 0; height_cm := 170; weight_kg := 70;
     glucose := 120; blood_pressure := 80; skin_thickness := 20;
     insulin := 80; dpf := 0%float |}.

(** Glucose 90, no family history, BMI 24.22: rule 1 applies. *)
Definition low_risk_person : Inputs :=
  {| age := 30; pregnancies := 0; height_cm := 170; weight_kg := 70;
     glucose := 90; blood_pressure := 80; skin_thickness := 20;
     insulin := 80; dpf := 0%float |}.

(** Glucose 105, no family history: outside rule 1, inside the glucose
    and family-history range of rule 2. *)
Definition guarded_person : Inputs :=
  {| age := 60; pregnancies := 0; height_cm := 170; weight_kg := 70;
     glucose := 105; blood_pressure := 80; skin_thickness := 20;
     insulin := 80; dpf := 0%float |}.

(** Column names as in the Pima Indians diabetes table. *)
Definition sample_columns : list string :=
  ["Pregnancies"; "Glucose"; "BloodPressure"; "SkinThickness"; "Insulin";
   "BMI"; "DiabetesPedigreeFunction"; "Age"].

Definition sample_impacts : list float :=
  [1; -2; 3; -3; 0; 2; 5; -5]%float.

(** Contributions of which the second is NaN. *)
Definition unrankable_impacts : list float :=
  [1; PrimFloat.nan; 2; 0; 0; 0; 0; 0]%float.

(* ===================================================================== *)
(** ** Facts about the order of binary64 numbers *)
(* ===================================================================== *)

Lemma SFcompare_rank (x y : spec_float) :
  x <> S754_nan -> y <> S754_nan ->
  SFcompare x y = Some (lex_compare (rank x) (rank y)).
Proof.
  intros Hx Hy.
  destruct x as [sx|sx| |sx mx ex]; destruct y as [sy|sy| |sy my ey];
    try congruence;
    try (destruct sx; reflexivity); try (destruct sy; reflexivity);
    try (destruct sx, sy; reflexivity).
  destruct sx, sy; try reflexivity; cbn [SFcompare rank lex_compare].
  rewrite Z.compare_opp, (Z.compare_antisym ey ex).
  destruct (ey ?= ex); reflexivity.
Qed.

Lemma lex_compare_lt_trans a b c :
  lex_compare a b = Lt -> lex_compare b c = Lt -> lex_compare a c = Lt.
Proof.
  destruct a as [[a1 a2] a3], b as [[b1 b2] b3], c as [[c1 c2] c3].
  unfold lex_compare.
  destruct (Z.compare_spec a1 b1), (Z.compare_spec b1 c1), (Z.compare_spec a1 c1);
    try lia; try discriminate; try reflexivity;
    destruct (Z.compare_spec a2 b2), (Z.compare_spec b2 c2), (Z.compare_spec a2 c2);
    try lia; try discriminate; try reflexivity;
    rewrite ?Z.compare_lt_iff; lia.
Qed.

Lemma lex_compare_antisym a b : lex_compare b a = CompOpp (lex_compare a b).
Proof.
  destruct a as [[a1 a2] a3], b as [[b1 b2] b3]. unfold lex_compare.
  rewrite (Z.compare_antisym a1 b1), (Z.compare_antisym a2 b2), (Z.compare_antisym a3 b3).
  destruct (a1 ?= b1), (a2 ?= b2), (a3 ?= b3); reflexivity.
Qed.

Lemma lex_compare_refl a : lex_compare a a = Eq.
Proof.
  destruct a as [[a1 a2] a3]. unfold lex_compare. now rewrite !Z.compare_refl.
Qed.

Lemma Prim2SF_nan (x : float) : Prim2SF x = S754_nan <-> PrimFloat.is_nan x = true.
Proof.
  unfold Prim2SF. destruct (PrimFloat.is_nan x); [tauto|].
  destruct (PrimFloat.is_zero x); [split; discriminate|].
  destruct (PrimFloat.is_infinity x); [split; discriminate|].
  destruct (Z.frexp x) as [r ex].
  destruct (shr_fexp _ _ _ _ _) as [shr e'].
  destruct (shr_m shr); split; discriminate.
Qed.

Lemma is_number_SF (x : float) : is_number x -> Prim2SF x <> S754_nan.
Proof.
  unfold is_number. intros H E. apply Prim2SF_nan in E. congruence.
Qed.

Lemma SFcompare_nan_l y : SFcompare S754_nan y = None.
Proof. reflexivity. Qed.

Lemma SFcompare_nan_r x : SFcompare x S754_nan = None.
Proof. destruct x; reflexivity. Qed.

Lemma SFltb_true_numbers x y :
  SFltb x y = true -> x <> S754_nan /\ y <> S754_nan.
Proof.
  unfold SFltb. intros H. split; intros ->.
  - rewrite SFcompare_nan_l in H. discriminate.
  - rewrite SFcompare_nan_r in H. discriminate.
Qed.

Lemma SFltb_rank x y :
  x <> S754_nan -> y <> S754_nan ->
  SFltb x y = true <-> lex_compare (rank x) (rank y) = Lt.
Proof.
  intros Hx Hy. unfold SFltb. rewrite (SFcompare_rank x y Hx Hy).
  destruct (lex_compare (rank x) (rank y)); split; congruence.
Qed.

(** [<] on floats is transitive. *)
Lemma ltb_trans (x y z : float) :
  PrimFloat.ltb x y = true -> PrimFloat.ltb y z = true -> PrimFloat.ltb x z = true.
Proof.
  rewrite !ltb_spec. intros Hxy Hyz.
  destruct (SFltb_true_numbers _ _ Hxy) as [Hx Hy].
  destruct (SFltb_true_numbers _ _ Hyz) as [_ Hz].
  apply SFltb_rank in Hxy; trivial. apply SFltb_rank in Hyz; trivial.
  apply SFltb_rank; trivial. eapply lex_compare_lt_trans; eassumption.
Qed.

(** [<] on floats is irreflexive. *)
Lemma ltb_irrefl (x : float) : PrimFloat.ltb x x = false.
Proof.
  rewrite ltb_spec. unfold SFltb.
  destruct (Prim2SF x) eqn:E; try reflexivity;
    rewrite <- E, SFcompare_rank by (rewrite E; discriminate);
    now rewrite lex_compare_refl.
Qed.

Lemma ltb_asym (x y : float) :
  PrimFloat.ltb x y = true -> PrimFloat.ltb y x = false.
Proof.
  intros H. destruct (PrimFloat.ltb y x) eqn:E; trivial.
  pose proof (ltb_trans _ _ _ H E) as C. rewrite ltb_irrefl in C. discriminate.
Qed.

(** On numbers, "not less than" is transitive. *)
Lemma ltb_negtrans (x y z : float) :
  is_number x -> is_number y -> is_number z ->
  PrimFloat.ltb x y = false -> PrimFloat.ltb y z = false -> PrimFloat.ltb x z = false.
Proof.
  intros Hx Hy Hz. apply is_number_SF in Hx, Hy, Hz.
  rewrite !ltb_spec. unfold SFltb.
  rewrite !SFcompare_rank by assumption.
  intros Hxy Hyz.
  destruct (lex_compare (rank (Prim2SF x)) (rank (Prim2SF z))) eqn:Exz; trivial.
  exfalso.
  destruct (lex_compare (rank (Prim2SF x)) (rank (Prim2SF y))) eqn:Exy; try discriminate;
  destruct (lex_compare (rank (Prim2SF y)) (rank (Prim2SF z))) eqn:Eyz; try discriminate.
  all: revert Exy Eyz Exz;
    destruct (rank (Prim2SF x)) as [[a1 a2] a3], (rank (Prim2SF y)) as [[b1 b2] b3],
             (rank (Prim2SF z)) as [[c1 c2] c3]; unfold lex_compare;
    destruct (Z.compare_spec a1 b1), (Z.compare_spec b1 c1), (Z.compare_spec a1 c1);
    try lia; try discriminate;
    destruct (Z.compare_spec a2 b2), (Z.compare_spec b2 c2), (Z.compare_spec a2 c2);
    try lia; try discriminate;
    rewrite ?Z.compare_lt_iff, ?Z.compare_gt_iff, ?Z.compare_eq_iff; lia.
Qed.

(** Two numbers of which neither is less than the other are [==]. *)
Lemma not_ltb_eqb (x y : float) :
  is_number x -> is_number y ->
  PrimFloat.ltb x y = false -> PrimFloat.ltb y x = false -> PrimFloat.eqb x y = true.
Proof.
  intros Hx Hy. apply is_number_SF in Hx, Hy.
  rewrite !ltb_spec, eqb_spec. unfold SFltb, SFeqb.
  rewrite !SFcompare_rank by assumption.
  rewrite (lex_compare_antisym (rank (Prim2SF x)) (rank (Prim2SF y))).
  destruct (lex_compare (rank (Prim2SF x)) (rank (Prim2SF y))); cbn; congruence.
Qed.

Lemma abs_is_number (x : float) : is_number x -> is_number (PrimFloat.abs x).
Proof.
  unfold is_number. intros H.
  destruct (PrimFloat.is_nan (PrimFloat.abs x)) eqn:E; trivial.
  apply Prim2SF_nan in E. rewrite abs_spec in E.
  destruct (Prim2SF x) eqn:Ex; try discriminate.
  apply Prim2SF_nan in Ex. congruence.
Qed.

(* ===================================================================== *)
(** ** The stable descending sort *)
(* ===================================================================== *)

Lemma StronglySorted_snoc {A : Type} (R : A -> A -> Prop) (l : list A) (a : A) :
  StronglySorted R l -> Forall (fun y => R y a) l -> StronglySorted R (l ++ [a]).
Proof.
  induction 1 as [|b l Hl IH Hb]; intros Ha; cbn.
  - repeat constructor.
  - inversion Ha as [|? ? Hba Ha']; subst. constructor.
    + now apply IH.
    + apply Forall_app. split; [assumption | now constructor].
Qed.

Lemma StronglySorted_rev {A : Type} (R : A -> A -> Prop) (l : list A) :
  StronglySorted R l -> StronglySorted (fun a b => R b a) (rev l).
Proof.
  induction 1 as [|a l Hl IH Ha]; cbn.
  - constructor.
  - apply StronglySorted_snoc; [assumption | now apply Forall_rev].
Qed.

Lemma StronglySorted_weaken {A : Type} (P : A -> Prop) (R R' : A -> A -> Prop)
      (l : list A) :
  (forall x y, P x -> P y -> R x y -> R' x y) ->
  Forall P l -> StronglySorted R l -> StronglySorted R' l.
Proof.
  intros HRR' HP HS. induction HS as [|a l Hl IH Ha].
  - constructor.
  - inversion HP as [|? ? Pa Pl]; subst. constructor; [now apply IH|].
    rewrite Forall_forall in *. intros y Hy. apply HRR'; auto.
Qed.

Lemma StronglySorted_firstn {A : Type} (R : A -> A -> Prop) (n : nat) (l : list A) :
  StronglySorted R l -> StronglySorted R (firstn n l).
Proof.
  intros HS. revert n. induction HS as [|a l Hl IH Ha]; intros [|n]; cbn;
    try constructor.
  - apply IH.
  - rewrite Forall_forall in *. intros y Hy. apply Ha.
    rewrite <- (firstn_skipn n l). apply in_or_app. now left.
Qed.

Lemma indexed_from_snd {A : Type} (l : list A) (s : nat) :
  map snd (combine (seq s (List.length l)) l) = l.
Proof.
  revert s. induction l as [|a l IH]; intros s; cbn; [reflexivity|].
  now rewrite IH.
Qed.

Lemma indexed_from_increasing {A : Type} (l : list A) (s : nat) :
  StronglySorted (fun p q : nat * A => (fst p < fst q)%nat)
                 (combine (seq s (List.length l)) l)
  /\ Forall (fun p : nat * A => (s <= fst p)%nat) (combine (seq s (List.length l)) l).
Proof.
  revert s. induction l as [|a l IH]; intros s; cbn.
  - split; constructor.
  - destruct (IH (S s)) as [HS HF]. split.
    + constructor; [assumption|].
      eapply Forall_impl; [|exact HF]. cbn. intros p Hp. lia.
    + constructor; [cbn; lia|].
      eapply Forall_impl; [|exact HF]. cbn. intros p Hp. lia.
Qed.

Lemma insert_right_perm {A : Type} (ltk : A -> A -> bool) (x : A) (l : list A) :
  Permutation (x :: l) (Py.insert_right ltk x l).
Proof.
  induction l as [|y l IH]; cbn; [reflexivity|].
  destruct (ltk x y); [reflexivity|].
  rewrite perm_swap. now constructor.
Qed.

Lemma insert_right_last {A : Type} (ltk : A -> A -> bool) (x : A) (l : list A) :
  Forall (fun y => ltk x y = false) l -> Py.insert_right ltk x l = (l ++ [x])%list.
Proof.
  induction 1 as [|y l Hy Hl IH]; cbn; [reflexivity|].
  now rewrite Hy, IH.
Qed.

Lemma insertion_sort_rev {A : Type} (ltk : A -> A -> bool) (l : list A) :
  Py.insertion_sort ltk (rev l) = fold_right (Py.insert_right ltk) [] l.
Proof.
  unfold Py.insertion_sort.
  rewrite <- (fold_left_rev_right (fun x acc => Py.insert_right ltk x acc)).
  now rewrite rev_involutive.
Qed.

Lemma binary_insert_perm {A : Type} (ltk : A -> A -> bool) (x : A) (a : list A) :
  Permutation (x :: a) (Py.binary_insert ltk x a).
Proof.
  unfold Py.binary_insert.
  rewrite <- Permutation_middle, firstn_skipn. reflexivity.
Qed.

Lemma binarysort_perm {A : Type} (ltk : A -> A -> bool) (rest run : list A) :
  Permutation (run ++ rest)%list (Py.binarysort ltk run rest).
Proof.
  unfold Py.binarysort. revert run.
  induction rest as [|x rest IH]; intros run; cbn.
  - now rewrite app_nil_r.
  - rewrite <- IH, <- binary_insert_perm. cbn. symmetry. apply Permutation_middle.
Qed.

Lemma stable_sort_perm {A : Type} (ltk : A -> A -> bool) (l : list A) :
  Permutation l (Py.stable_sort ltk l).
Proof.
  unfold Py.stable_sort. destruct (Py.count_run ltk l) as [n descending].
  rewrite <- binarysort_perm.
  rewrite <- (firstn_skipn n l) at 1.
  apply Permutation_app_tail.
  destruct descending; [apply Permutation_rev | reflexivity].
Qed.

Lemma sorted_reverse_perm {A : Type} (ltk : A -> A -> bool) (l : list A) :
  Permutation l (Py.sorted_reverse ltk l).
Proof.
  unfold Py.sorted_reverse.
  rewrite <- Permutation_rev, <- stable_sort_perm. apply Permutation_rev.
Qed.

(** The run found at the start of a list. *)
Lemma run_ascending_sorted {A : Type} (ltk : A -> A -> bool) (l : list A) (prev : A) :
  Sorted (fun p n => ltk n p = false)
         (prev :: firstn (Py.run_ascending ltk prev l) l).
Proof.
  revert prev. induction l as [|x l IH]; intros prev; cbn.
  - repeat constructor.
  - destruct (ltk x prev) eqn:E; cbn.
    + repeat constructor.
    + constructor; [apply IH | now constructor].
Qed.

Lemma run_descending_sorted {A : Type} (ltk : A -> A -> bool) (l : list A) (prev : A) :
  Sorted (fun p n => ltk n p = true)
         (prev :: firstn (Py.run_descending ltk prev l) l).
Proof.
  revert prev. induction l as [|x l IH]; intros prev; cbn.
  - repeat constructor.
  - destruct (ltk x prev) eqn:E; cbn.
    + constructor; [apply IH | now constructor].
    + repeat constructor.
Qed.

Lemma run_ascending_all {A : Type} (ltk : A -> A -> bool) (l : list A) (prev : A) :
  Sorted (fun p n => ltk n p = false) (prev :: l) ->
  Py.run_ascending ltk prev l = List.length l.
Proof.
  revert prev. induction l as [|x l IH]; intros prev HS; cbn; [reflexivity|].
  inversion HS as [|? ? Hl Hhd]; subst.
  inversion Hhd as [|? ? E]; subst. rewrite E. f_equal. now apply IH.
Qed.

(** A list in which no element is less than the one before it is one
    ascending run: it is returned as it is. *)
Lemma stable_sort_ascending_run {A : Type} (ltk : A -> A -> bool) (l : list A) :
  Sorted (fun p n => ltk n p = false) l -> Py.stable_sort ltk l = l.
Proof.
  intros HS. unfold Py.stable_sort, Py.count_run.
  destruct l as [|a [|b l]]; [reflexivity | reflexivity |].
  inversion HS as [|? ? Hl Hhd]; subst.
  inversion Hhd as [|? ? E]; subst. rewrite E.
  rewrite (run_ascending_all ltk l b Hl).
  change (S (S (List.length l))) with (List.length (a :: b :: l)).
  now rewrite firstn_all, skipn_all.
Qed.

Lemma sorted_reverse_ranked_input {A : Type} (ltk : A -> A -> bool) (l : list A) :
  StronglySorted (fun a b => ltk a b = false) l -> Py.sorted_reverse ltk l = l.
Proof.
  intros HS. unfold Py.sorted_reverse.
  rewrite stable_sort_ascending_run; [apply rev_involutive|].
  apply StronglySorted_Sorted.
  apply (StronglySorted_rev (fun a b => ltk a b = false)), HS.
Qed.

(** A strictly descending run is reversed by insertion. *)
Lemma insertion_descending {A : Type} (ltk : A -> A -> bool) (run : list A)
      (h : A) (acc : list A) :
  Sorted (fun p n => ltk n p = true) (h :: run) ->
  fold_left (fun acc x => Py.insert_right ltk x acc) run (h :: acc)
  = (rev run ++ h :: acc)%list.
Proof.
  revert h acc. induction run as [|x run IH]; intros h acc HS; cbn; [reflexivity|].
  inversion HS as [|? ? Hl Hhd]; subst.
  inversion Hhd as [|? ? E]; subst. rewrite E.
  rewrite (IH x (h :: acc) Hl). now rewrite <- app_assoc.
Qed.

Lemma Forall_take {A : Type} (P : A -> Prop) (n : nat) (l : list A) :
  Forall P l -> Forall P (firstn n l).
Proof.
  rewrite !Forall_forall. intros H x Hx. apply H.
  rewrite <- (firstn_skipn n l). apply in_or_app. now left.
Qed.

Lemma Forall_drop {A : Type} (P : A -> Prop) (n : nat) (l : list A) :
  Forall P l -> Forall P (skipn n l).
Proof.
  rewrite !Forall_forall. intros H x Hx. apply H.
  rewrite <- (firstn_skipn n l). apply in_or_app. now right.
Qed.

Lemma insertion_perm {A : Type} (ltk : A -> A -> bool) (l : list A) :
  Permutation l (fold_right (Py.insert_right ltk) [] l).
Proof.
  induction l as [|x l IH]; cbn; [reflexivity|].
  rewrite <- insert_right_perm. now constructor.
Qed.

Section StableSort.

Context {A : Type}.
Variable ltk : A -> A -> bool.
Variable ok : A -> Prop.
Hypothesis ltk_irrefl : forall x, ltk x x = false.
Hypothesis ltk_trans :
  forall x y z, ltk x y = true -> ltk y z = true -> ltk x z = true.
Hypothesis ltk_negtrans :
  forall x y z, ok x -> ok y -> ok z ->
                ltk x y = false -> ltk y z = false -> ltk x z = false.

Lemma Forall_insert_right (P : A -> Prop) (x : A) (l : list A) :
  P x -> Forall P l -> Forall P (Py.insert_right ltk x l).
Proof.
  intros Hx Hl. eapply Permutation_Forall; [apply insert_right_perm|].
  now constructor.
Qed.

Lemma insert_right_ascending (x : A) (acc : list A) :
  ok x -> Forall ok acc -> ascending ltk acc ->
  ascending ltk (Py.insert_right ltk x acc).
Proof.
  intros Hx Hok HS. induction HS as [|y acc Hacc IH Hy]; cbn.
  - repeat constructor.
  - inversion Hok as [|? ? Oky Okacc]; subst.
    destruct (ltk x y) eqn:Exy.
    + constructor; [now constructor|].
      constructor.
      * destruct (ltk y x) eqn:Eyx; [|reflexivity].
        rewrite <- (ltk_irrefl x). symmetry. now apply ltk_trans with y.
      * rewrite Forall_forall in *. intros z Hz.
        destruct (ltk z x) eqn:Ezx; [|reflexivity].
        rewrite <- (Hy z Hz). symmetry. now apply ltk_trans with x.
    + constructor; [now apply IH|].
      apply Forall_insert_right; assumption.
Qed.

Lemma insertion_ascending (l acc : list A) :
  Forall ok l -> Forall ok acc -> ascending ltk acc ->
  ascending ltk (fold_left (fun acc x => Py.insert_right ltk x acc) l acc)
  /\ Forall ok (fold_left (fun acc x => Py.insert_right ltk x acc) l acc).
Proof.
  revert acc. induction l as [|x l IH]; intros acc Hl Hacc HS; cbn; [now split|].
  inversion Hl as [|? ? Okx Okl]; subst.
  apply IH; trivial.
  - now apply Forall_insert_right.
  - now apply insert_right_ascending.
Qed.

(** The binary search of [binarysort] on an ascending list stops where
    the linear scan does. *)
Lemma bisect_spec (x : A) (a : list A) :
  ok x -> Forall ok a -> ascending ltk a ->
  forall fuel l r,
    (l <= r <= List.length a)%nat -> (r - l <= fuel)%nat ->
    (forall j, (j < l)%nat -> ltk x (nth j a x) = false) ->
    (forall j, (r <= j < List.length a)%nat -> ltk x (nth j a x) = true) ->
    (Py.bisect ltk fuel x a l r <= List.length a)%nat /\
    (forall j, (j < Py.bisect ltk fuel x a l r)%nat -> ltk x (nth j a x) = false) /\
    (forall j, (Py.bisect ltk fuel x a l r <= j < List.length a)%nat ->
               ltk x (nth j a x) = true).
Proof.
  intros Hx Hok HS.
  assert (Hmono : forall j j', (j <= j' < List.length a)%nat ->
                    ltk (nth j' a x) (nth j a x) = false).
  { intros j j' Hj. destruct (Nat.eq_dec j j') as [<- | Hne]; [apply ltk_irrefl|].
    assert (Hlt : (j < j')%nat) by lia. clear Hne.
    revert j j' Hj Hlt. clear Hok.
    induction HS as [|b a Ha IH Hb]; intros j j' Hj Hlt; cbn in Hj; [lia|].
    destruct j' as [|j']; [lia|]. destruct j as [|j]; cbn.
    - rewrite Forall_forall in Hb. apply Hb, nth_In. lia.
    - apply IH; lia. }
  assert (Hnth : forall j, (j < List.length a)%nat -> ok (nth j a x)).
  { intros j Hj. rewrite Forall_forall in Hok. apply Hok, nth_In, Hj. }
  induction fuel as [|fuel IH]; intros l r Hlr Hfuel Hlow Hhigh;
    cbn [Py.bisect].
  - assert (l = r) by lia. subst. repeat split; trivial; lia.
  - destruct (l <? r)%nat eqn:Elr.
    + apply Nat.ltb_lt in Elr. cbv zeta.
      pose proof (Nat.div_mod_eq (r - l) 2) as Hdiv.
      pose proof (Nat.mod_upper_bound (r - l) 2 ltac:(lia)) as Hmod.
      assert (Hp : (l <= l + (r - l) / 2 < r)%nat) by lia.
      clear Hdiv Hmod. revert Hp. generalize (l + (r - l) / 2)%nat. intros p Hp.
      destruct (ltk x (nth p a x)) eqn:Ep.
      * apply IH; try lia; trivial.
        intros j Hj. destruct (ltk x (nth j a x)) eqn:Ej; [reflexivity|].
        rewrite <- Ep. symmetry.
        apply ltk_negtrans with (nth j a x); trivial; try (apply Hnth; lia).
        apply Hmono. lia.
      * apply IH; try lia; trivial.
        intros j Hj. destruct (Nat.eq_dec j p) as [-> | Hne]; [exact Ep|].
        apply ltk_negtrans with (nth p a x); trivial; try (apply Hnth; lia).
        apply Hmono. lia.
    + apply Nat.ltb_ge in Elr. assert (l = r) by lia. subst.
      repeat split; trivial; lia.
Qed.

Lemma insert_right_at (x : A) (a : list A) (k : nat) :
  (k <= List.length a)%nat ->
  (forall j, (j < k)%nat -> ltk x (nth j a x) = false) ->
  ((k < List.length a)%nat -> ltk x (nth k a x) = true) ->
  Py.insert_right ltk x a = (firstn k a ++ x :: skipn k a)%list.
Proof.
  revert k. induction a as [|y a IH]; intros k Hk Hlow Hat; cbn in *.
  - assert (k = 0%nat) by lia. now subst.
  - destruct k as [|k]; cbn.
    + now rewrite (Hat ltac:(lia)).
    + rewrite (Hlow 0%nat ltac:(lia)). f_equal.
      apply IH; [lia | |].
      * intros j Hj. apply (Hlow (S j)). lia.
      * intros Hlt. apply Hat. lia.
Qed.

Lemma binary_insert_linear (x : A) (a : list A) :
  ok x -> Forall ok a -> ascending ltk a ->
  Py.binary_insert ltk x a = Py.insert_right ltk x a.
Proof.
  intros Hx Hok HS. unfold Py.binary_insert.
  destruct (bisect_spec x a Hx Hok HS (List.length a) 0%nat (List.length a))
    as (Hk & Hlow & Hhigh); try lia.
  symmetry. apply insert_right_at; trivial.
  intros Hlt. apply Hhigh. lia.
Qed.

Lemma binarysort_linear (rest run : list A) :
  Forall ok rest -> Forall ok run -> ascending ltk run ->
  Py.binarysort ltk run rest
  = fold_left (fun acc x => Py.insert_right ltk x acc) rest run.
Proof.
  unfold Py.binarysort. revert run.
  induction rest as [|x rest IH]; intros run Hrest Hrun HS; cbn; [reflexivity|].
  inversion Hrest as [|? ? Okx Okrest]; subst.
  rewrite (binary_insert_linear x run Okx Hrun HS).
  apply IH; trivial.
  - now apply Forall_insert_right.
  - now apply insert_right_ascending.
Qed.

Lemma adjacent_ascending (l : list A) :
  Forall ok l -> Sorted (fun p n => ltk n p = false) l -> ascending ltk l.
Proof.
  intros Hok HS. induction HS as [|a l Hl IH Hhd]; [constructor|].
  inversion Hok as [|? ? Oka Okl]; subst.
  specialize (IH Okl). constructor; [assumption|].
  destruct Hhd as [|b l Eab]; [constructor|].
  inversion Okl as [|? ? Okb Okl']; subst.
  constructor; [assumption|].
  apply StronglySorted_inv in IH. destruct IH as [_ Hb].
  rewrite Forall_forall in *. intros c Hc.
  apply ltk_negtrans with b; auto.
Qed.

Lemma insertion_sort_ascending_run (l : list A) :
  Forall ok l -> Sorted (fun p n => ltk n p = false) l ->
  Py.insertion_sort ltk l = l.
Proof.
  intros Hok HS. apply adjacent_ascending in HS; trivial.
  rewrite <- (rev_involutive l) at 1. rewrite insertion_sort_rev.
  rewrite <- (rev_involutive l) at 2.
  apply (StronglySorted_rev (fun a b => ltk b a = false)) in HS.
  clear Hok. induction HS as [|x m Hm IH Hx]; cbn; [reflexivity|].
  rewrite IH. apply insert_right_last. now apply Forall_rev.
Qed.

Lemma insertion_sort_descending_run (l : list A) :
  Sorted (fun p n => ltk n p = true) l -> Py.insertion_sort ltk l = rev l.
Proof.
  intros HS. destruct l as [|h run]; [reflexivity|].
  unfold Py.insertion_sort. cbn [fold_left Py.insert_right].
  now rewrite (insertion_descending ltk run h [] HS).
Qed.

(** On keys that form a weak order, run detection followed by binary
    insertion computes what plain insertion computes. *)
Lemma stable_sort_insertion (l : list A) :
  Forall ok l -> Py.stable_sort ltk l = Py.insertion_sort ltk l.
Proof.
  intros Hok. unfold Py.stable_sort.
  destruct (Py.count_run ltk l) as [n descending] eqn:Ecount.
  assert (Hrun : (if descending then rev (firstn n l) else firstn n l)
                 = Py.insertion_sort ltk (firstn n l)).
  { unfold Py.count_run in Ecount.
    destruct l as [|a [|b l]].
    - injection Ecount as <- <-. reflexivity.
    - injection Ecount as <- <-. reflexivity.
    - inversion Hok as [|? ? Oka Ok']; subst.
      destruct (ltk b a) eqn:Eba; injection Ecount as <- <-.
      + symmetry. apply insertion_sort_descending_run.
        cbn [firstn Nat.add]. constructor; [|now constructor].
        apply run_descending_sorted.
      + symmetry. apply insertion_sort_ascending_run.
        * apply Forall_take. now constructor.
        * cbn [firstn Nat.add]. constructor; [|now constructor].
          apply run_ascending_sorted. }
  rewrite Hrun.
  assert (Hfirst : Forall ok (firstn n l)) by now apply Forall_take.
  assert (Hskip : Forall ok (skipn n l)) by now apply Forall_drop.
  destruct (insertion_ascending (firstn n l) [] Hfirst (Forall_nil _)
              (SSorted_nil _)) as [Hasc Hok'].
  rewrite binarysort_linear; trivial.
  unfold Py.insertion_sort. rewrite <- fold_left_app.
  now rewrite firstn_skipn.
Qed.


Lemma insert_right_unindexed (x : nat * A) (l : list (nat * A)) :
  map snd (Py.insert_right (lti ltk) x l) = Py.insert_right ltk (snd x) (map snd l).
Proof.
  induction l as [|y l IH]; cbn; [reflexivity|].
  unfold lti at 1. destruct (ltk (snd x) (snd y)); cbn; [reflexivity|].
  now rewrite IH.
Qed.

Lemma insertion_unindexed (l : list (nat * A)) :
  map snd (fold_right (Py.insert_right (lti ltk)) [] l)
  = fold_right (Py.insert_right ltk) [] (map snd l).
Proof.
  induction l as [|x l IH]; cbn; [reflexivity|].
  now rewrite insert_right_unindexed, IH.
Qed.

(** Inserting an element that was earlier in the input than everything
    already placed keeps the ascending list in order: it lands after the
    elements whose key is not greater. *)
Lemma insert_right_sorted (x : nat * A) (acc : list (nat * A)) :
  ok (snd x) -> Forall (fun y => ok (snd y)) acc ->
  StronglySorted (fun p q => ranked_before ltk q p) acc ->
  Forall (fun y => (fst x < fst y)%nat) acc ->
  StronglySorted (fun p q => ranked_before ltk q p) (Py.insert_right (lti ltk) x acc).
Proof.
  intros Hx Hok HS Hidx.
  induction HS as [|y acc Hacc IH Hy]; cbn.
  - repeat constructor.
  - inversion Hok as [|? ? Oky Okacc]; subst.
    inversion Hidx as [|? ? Ixy Iacc]; subst.
    unfold lti at 1. destruct (ltk (snd x) (snd y)) eqn:Exy.
    + constructor; [now constructor|].
      constructor; [now left|].
      rewrite Forall_forall in *. intros z Hz. left.
      destruct (Hy z Hz) as [Hyz | [Hzy _]].
      * now apply ltk_trans with (snd y).
      * destruct (ltk (snd x) (snd z)) eqn:Exz; [reflexivity|].
        rewrite (ltk_negtrans (snd x) (snd z) (snd y)) in Exy; auto.
    + constructor; [now apply IH|].
      rewrite Forall_forall in *. intros z Hz.
      apply (Permutation_in _ (Permutation_sym (insert_right_perm (lti ltk) x acc))) in Hz.
      destruct Hz as [<- | Hz]; [|now apply Hy].
      right. split; assumption.
Qed.

Lemma insertion_sorted (l : list (nat * A)) :
  Forall (fun y => ok (snd y)) l ->
  StronglySorted (fun p q => (fst p < fst q)%nat) l ->
  StronglySorted (fun p q => ranked_before ltk q p)
                 (fold_right (Py.insert_right (lti ltk)) [] l).
Proof.
  intros Hok HS. induction HS as [|x l Hl IH Hx]; cbn.
  - constructor.
  - inversion Hok as [|? ? Okx Okl]; subst.
    apply insert_right_sorted; trivial.
    + eapply Permutation_Forall; [apply insertion_perm | exact Okl].
    + now apply IH.
    + eapply Permutation_Forall; [apply insertion_perm | exact Hx].
Qed.

(** [sorted(l, key, reverse=True)] on keys that form a weak order: the
    result is the input rearranged so that keys descend and elements with
    equivalent keys keep their input order. *)
Lemma sorted_reverse_ranked (l : list A) :
  Forall ok l ->
  exists il : list (nat * A),
    Permutation (indexed l) il /\
    map snd il = Py.sorted_reverse ltk l /\
    StronglySorted (ranked_before ltk) il.
Proof.
  intros Hok.
  exists (rev (fold_right (Py.insert_right (lti ltk)) [] (indexed l))).
  split; [|split].
  - rewrite <- Permutation_rev. apply insertion_perm.
  - rewrite map_rev, insertion_unindexed. unfold indexed.
    rewrite indexed_from_snd. unfold Py.sorted_reverse.
    rewrite stable_sort_insertion by now apply Forall_rev.
    now rewrite insertion_sort_rev.
  - apply (StronglySorted_rev (fun p q => ranked_before ltk q p)).
    apply insertion_sorted.
    + rewrite Forall_forall in *. intros [k a] Hin. cbn.
      apply Hok. unfold indexed in Hin. now apply in_combine_r in Hin.
    + apply (indexed_from_increasing l 0).
Qed.

End StableSort.

(* ===================================================================== *)
(** ** Running the script *)
(* ===================================================================== *)

#[local] Arguments height_m_expr : simpl never.
#[local] Arguments bmi_expr : simpl never.
#[local] Arguments user_data : simpl never.
#[local] Arguments medically_low_risk : simpl never.
#[local] Arguments age_bias_guard : simpl never.
#[local] Arguments model_probability : simpl never.
#[local] Arguments Py.number_lt_int : simpl never.
#[local] Arguments Py.sorted_reverse : simpl never.
#[local] Arguments influence_message : simpl never.
#[local] Arguments firstn : simpl never.

Lemma bmi_inv (i : Inputs) (b : float) :
  bmi (height_cm i) (weight_kg i) = inr b ->
  exists hm, height_m_expr (height_cm i) = inr hm /\
             bmi_expr (weight_kg i) hm = inr b.
Proof.
  unfold bmi. destruct (height_m_expr (height_cm i)) as [e|hm]; [discriminate|].
  intros H. now exists hm.
Qed.

(** A loop whose body makes one call per element only appends calls. *)
Lemma for_each_calls {A : Type} (body : A -> M unit) (c : A -> call)
      (l : list A) (w : World) :
  (forall a w', runStateT (body a) w'
                = inr (tt, {| vars := vars w'; calls := calls w' ++ [c a] |})) ->
  runStateT (for_each l body) w
  = inr (tt, {| vars := vars w; calls := calls w ++ map c l |}).
Proof.
  intros Hbody. revert w. induction l as [|a l IH]; intros w; cbn.
  - rewrite app_nil_r. now destruct w.
  - rewrite Hbody, IH. cbn. now rewrite <- app_assoc.
Qed.

Section Run.

Variable predict_proba : list float -> float.
Variable explainer : list float -> list float.
Variable columns : list string.

(** The run of the script in closed form: with the BMI [b] computed, the
    evaluation finishes, binds every variable of the decision, and makes
    exactly these calls. *)
Lemma evaluate_run (i : Inputs) (g : Globals) (b hm : float) :
  height_m_expr (height_cm i) = inr hm ->
  bmi_expr (weight_kg i) hm = inr b ->
  let x := user_data i b in
  let mlr := medically_low_risk i b in
  let p := effective_probability (model_probability predict_proba x) i in
  let band := band_of mlr p in
  let expl := Py.sorted_reverse abs_impact_lt (combine columns (explainer x)) in
  evaluate predict_proba explainer columns i g =
  inr {| vars :=
           {| g_height_m := Some hm; g_bmi := Some b; g_user_data := Some x;
              g_medically_low_risk := Some mlr; g_probability := Some p;
              g_risk_level := Some band;
              g_impacts := if mlr then g_impacts g else Some (explainer x);
              g_explanation := if mlr then g_explanation g else Some expl |};
         calls := script_calls b x mlr band expl |}.
Proof.
  intros E1 E2 x mlr p band expl.
  unfold evaluate, script, bmi_calculation, check_diabetes_risk.
  cbn. rewrite E1. cbn. rewrite E2. cbn.
  fold x. fold mlr.
  subst p band. unfold script_calls, effective_probability, band_of, meter_calls, attribution_calls.
  destruct (age_bias_guard (model_probability predict_proba x) i); cbn;
    destruct mlr; cbn; try reflexivity;
    repeat match goal with
           | |- context [Py.number_lt_int ?a ?n] =>
               destruct (Py.number_lt_int a n); cbn
           end;
    rewrite (for_each_calls _
               (fun '(feature, value) => st_info (influence_message feature value)))
      by (intros [f v] w'; reflexivity);
    cbn; rewrite <- ?app_assoc; reflexivity.
Qed.

(** A failing BMI computation is the only way an evaluation fails. *)
Lemma evaluate_error (i : Inputs) (g : Globals) (e : Py.exn) :
  bmi (height_cm i) (weight_kg i) = inl e ->
  evaluate predict_proba explainer columns i g = inl e.
Proof.
  unfold bmi, evaluate, script, bmi_calculation. intros H.
  destruct (height_m_expr (height_cm i)) as [e1|hm]; cbn.
  - congruence.
  - rewrite H. reflexivity.
Qed.

End Run.

(* ===================================================================== *)
(** ** What the calls of a run show *)
(* ===================================================================== *)

Lemma attribution_calls_info (expl : list (string * float)) :
  flat_map (fun c => match c with st_info s => [s] | _ => [] end)
           (attribution_calls expl)
  = map (fun fv => influence_message (fst fv) (snd fv)) (firstn 3 expl).
Proof.
  unfold attribution_calls.
  induction (firstn 3 expl) as [|[f v] l IH]; cbn; [reflexivity|].
  now rewrite IH.
Qed.

Lemma attribution_calls_progress (expl : list (string * float)) :
  flat_map (fun c => match c with st_progress v => [v] | _ => [] end)
           (attribution_calls expl) = [].
Proof.
  unfold attribution_calls.
  induction (firstn 3 expl) as [|[f v] l IH]; cbn; [reflexivity|assumption].
Qed.

Lemma attribution_calls_no_explainer (expl : list (string * float)) :
  existsb is_explainer_call (attribution_calls expl) = false.
Proof.
  unfold attribution_calls.
  induction (firstn 3 expl) as [|[f v] l IH]; cbn; [reflexivity|assumption].
Qed.

Lemma meter_calls_info (band : string) :
  flat_map (fun c => match c with st_info s => [s] | _ => [] end)
           (meter_calls band) = [].
Proof.
  unfold meter_calls.
  destruct (String.eqb band "LOW"); [reflexivity|].
  destruct (String.eqb band "MODERATE"); reflexivity.
Qed.

(** The [st.info] statements of a run that explains itself are those of
    the first three entries of the ranking. *)
Lemma script_calls_info (b : float) (x : list float) (band : string)
      (expl : list (string * float)) :
  flat_map (fun c => match c with st_info s => [s] | _ => [] end)
           (script_calls b x false band expl)
  = map (fun fv => influence_message (fst fv) (snd fv)) (firstn 3 expl).
Proof.
  unfold script_calls.
  rewrite !flat_map_app, meter_calls_info, attribution_calls_info. cbn.
  now rewrite app_nil_r.
Qed.

(** The meter is set once, by the block that renders the band. *)
Lemma script_calls_progress (b : float) (x : list float) (mlr : bool)
      (band : string) (expl : list (string * float)) :
  flat_map (fun c => match c with st_progress v => [v] | _ => [] end)
           (script_calls b x mlr band expl)
  = flat_map (fun c => match c with st_progress v => [v] | _ => [] end)
             (meter_calls band).
Proof.
  unfold script_calls. rewrite !flat_map_app.
  destruct mlr; [|rewrite flat_map_app, attribution_calls_progress]; cbn;
    now rewrite app_nil_r.
Qed.

(** The two attribution texts differ for every feature name. *)
Lemma append_inv_head (s t u : string) : (s ++ t = s ++ u)%string -> t = u.
Proof.
  induction s as [|c s IH]; cbn; [trivial|].
  intros H. injection H as H. now apply IH.
Qed.

Lemma stronger_text_not_less_text (feature : string) :
  stronger_text feature <> less_text feature.
Proof.
  unfold stronger_text, less_text. intros H.
  apply append_inv_head, append_inv_head in H. discriminate.
Qed.

(** Comparisons of a probability with the thresholds 35 and 70. *)
Lemma lt_35_lt_70 (r : float) :
  Py.float_lt_int r 35 = true -> Py.float_lt_int r 70 = true.
Proof.
  unfold Py.float_lt_int. intros H.
  apply ltb_trans with (y := Py.float_of_int 35); [assumption|reflexivity].
Qed.

Lemma lt_70_not_gt_70 (r : float) :
  Py.float_lt_int r 70 = true -> Py.float_gt_int r 70 = false.
Proof. unfold Py.float_lt_int, Py.float_gt_int. apply ltb_asym. Qed.

Lemma lt_35_not_gt_70 (r : float) :
  Py.float_lt_int r 35 = true -> Py.float_gt_int r 70 = false.
Proof. intros H. now apply lt_70_not_gt_70, lt_35_lt_70. Qed.

Lemma not_lt_70_not_lt_35 (r : float) :
  Py.float_lt_int r 70 = false -> Py.float_lt_int r 35 = false.
Proof.
  intros H. destruct (Py.float_lt_int r 35) eqn:E; [|reflexivity].
  apply lt_35_lt_70 in E. congruence.
Qed.

(* ===================================================================== *)
(** ** The BMI *)
(* ===================================================================== *)

(** No height the widget can return makes the squared height zero. *)
Lemma squared_height_nonzero (h : Z) :
  100 <= h <= 220 ->
  PrimFloat.eqb
    (Py.float_pow2 (PrimFloat.div (Py.float_of_int h) (Py.float_of_int 100)))
    0%float = false.
Proof.
  intros Hh.
  assert (Hall : forallb (fun k : nat =>
            negb (PrimFloat.eqb
                    (Py.float_pow2 (PrimFloat.div (Py.float_of_int (Z.of_nat k))
                                                  (Py.float_of_int 100)))
                    0%float)) (seq 100 121) = true) by (vm_compute; reflexivity).
  rewrite forallb_forall in Hall.
  specialize (Hall (Z.to_nat h)).
  rewrite Z2Nat.id in Hall by lia.
  apply negb_true_iff, Hall, in_seq. lia.
Qed.

(** Over the widget range of the height the BMI is defined and is the
    rounded quotient of the weight by the squared height in metres. *)
Lemma bmi_in_domain (h w : Z) :
  100 <= h <= 220 ->
  bmi h w = inr (Py.round2
                   (PrimFloat.div (Py.float_of_int w)
                      (Py.float_pow2 (PrimFloat.div (Py.float_of_int h)
                                                    (Py.float_of_int 100))))).
Proof.
  intros Hh. unfold bmi, height_m_expr, bmi_expr, Py.int_truediv, Py.int_float_truediv.
  cbn [Z.eqb]. now rewrite (squared_height_nonzero h Hh).
Qed.

(* ===================================================================== *)
(** ** The claims *)
(* ===================================================================== *)

Section Claims.

Variable predict_proba : list float -> float.
Variable explainer : list float -> list float.
Variable columns : list string.

(** C1. Whenever glucose < 100, diabetes_pedigree == 0.0 and bmi < 32
    (rule A), the evaluation ends with band LOW whatever the model's
    probability is, and the attribution engine is not called. *)
Theorem rule_A_forces_low (i : Inputs) (g : Globals) (b : float) :
  bmi (height_cm i) (weight_kg i) = inr b ->
  glucose i < 100 ->
  PrimFloat.eqb (dpf i) 0%float = true ->
  Py.float_lt_int b 32 = true ->
  exists w, evaluate predict_proba explainer columns i g = inr w /\
            g_risk_level (vars w) = Some "LOW" /\
            attribution_engine_invoked w = false.
Proof.
  intros Hb Hg Hd Hm.
  destruct (bmi_inv i b Hb) as [hm [E1 E2]].
  pose proof (evaluate_run predict_proba explainer columns i g b hm E1 E2) as Hrun.
  cbv zeta in Hrun.
  assert (Hmlr : medically_low_risk i b = true).
  { unfold medically_low_risk. rewrite Hd, Hm.
    now rewrite (proj2 (Z.ltb_lt _ _) Hg). }
  rewrite Hmlr in Hrun.
  eexists. split; [exact Hrun|]. split; reflexivity.
Qed.

(** C2. When the raw probability exceeds 70, glucose < 110,
    diabetes_pedigree == 0.0 and rule A's predicate is false, the
    probability used for banding is exactly 55 and the band is MODERATE. *)
Theorem bias_guard_clamps_to_moderate (i : Inputs) (g : Globals) (b : float) :
  bmi (height_cm i) (weight_kg i) = inr b ->
  Py.number_gt_int (model_probability predict_proba (user_data i b)) 70 = true ->
  glucose i < 110 ->
  PrimFloat.eqb (dpf i) 0%float = true ->
  medically_low_risk i b = false ->
  exists w, evaluate predict_proba explainer columns i g = inr w /\
            g_probability (vars w) = Some (Py.Int 55) /\
            g_risk_level (vars w) = Some "MODERATE".
Proof.
  intros Hb Hp Hg Hd Hmlr.
  destruct (bmi_inv i b Hb) as [hm [E1 E2]].
  pose proof (evaluate_run predict_proba explainer columns i g b hm E1 E2) as Hrun.
  cbv zeta in Hrun.
  assert (Hguard : age_bias_guard (model_probability predict_proba (user_data i b)) i = true).
  { unfold age_bias_guard. rewrite Hp, Hd.
    now rewrite (proj2 (Z.ltb_lt _ _) Hg). }
  unfold effective_probability in Hrun. rewrite Hguard, Hmlr in Hrun.
  eexists. split; [exact Hrun|]. split; reflexivity.
Qed.

(** C3. Banding after the safety rules: if rule A fired the band is LOW;
    otherwise a probability below 35 gives LOW, one not below 35 but
    below 70 gives MODERATE, and any other gives HIGH; exactly 35 is
    MODERATE and exactly 70 is HIGH. *)
Theorem banding (i : Inputs) (g : Globals) (b : float) :
  bmi (height_cm i) (weight_kg i) = inr b ->
  exists w p,
    evaluate predict_proba explainer columns i g = inr w /\
    g_medically_low_risk (vars w) = Some (medically_low_risk i b) /\
    g_probability (vars w) = Some p /\
    (medically_low_risk i b = true -> g_risk_level (vars w) = Some "LOW") /\
    (medically_low_risk i b = false ->
       (Py.number_lt_int p 35 = true -> g_risk_level (vars w) = Some "LOW") /\
       (Py.number_lt_int p 35 = false -> Py.number_lt_int p 70 = true ->
          g_risk_level (vars w) = Some "MODERATE") /\
       (Py.number_lt_int p 35 = false -> Py.number_lt_int p 70 = false ->
          g_risk_level (vars w) = Some "HIGH") /\
       (p = Py.Float 35 -> g_risk_level (vars w) = Some "MODERATE") /\
       (p = Py.Float 70 -> g_risk_level (vars w) = Some "HIGH")).
Proof.
  intros Hb.
  destruct (bmi_inv i b Hb) as [hm [E1 E2]].
  pose proof (evaluate_run predict_proba explainer columns i g b hm E1 E2) as Hrun.
  cbv zeta in Hrun.
  eexists. eexists. split; [exact Hrun|]. cbn [vars g_medically_low_risk g_probability g_risk_level].
  split; [reflexivity|]. split; [reflexivity|].
  unfold band_of. split.
  - now intros ->.
  - intros ->. repeat split.
    + now intros ->.
    + now intros -> ->.
    + now intros -> ->.
    + now intros ->.
    + now intros ->.
Qed.

(** C4 (as amended). With glucose, diabetes_pedigree and bmi fixed
    outside rule A's range, a raw probability below 35 gives LOW and one
    from 35 to below 70 gives MODERATE; one that is not below 70 gives
    HIGH when the bias guard does not fire (glucose >= 110, or
    diabetes_pedigree != 0.0, or the probability is not above 70) and
    MODERATE, with the probability replaced by 55, when it fires. *)
Theorem band_by_raw_probability (i : Inputs) (g : Globals) (b r : float) :
  bmi (height_cm i) (weight_kg i) = inr b ->
  medically_low_risk i b = false ->
  model_probability predict_proba (user_data i b) = Py.Float r ->
  exists w,
    evaluate predict_proba explainer columns i g = inr w /\
    (Py.float_lt_int r 35 = true -> g_risk_level (vars w) = Some "LOW") /\
    (Py.float_lt_int r 35 = false -> Py.float_lt_int r 70 = true ->
       g_risk_level (vars w) = Some "MODERATE") /\
    (Py.float_lt_int r 70 = false -> age_bias_guard (Py.Float r) i = false ->
       g_risk_level (vars w) = Some "HIGH") /\
    (age_bias_guard (Py.Float r) i = true ->
       g_probability (vars w) = Some (Py.Int 55) /\
       g_risk_level (vars w) = Some "MODERATE").
Proof.
  intros Hb Hmlr Hraw.
  destruct (bmi_inv i b Hb) as [hm [E1 E2]].
  pose proof (evaluate_run predict_proba explainer columns i g b hm E1 E2) as Hrun.
  cbv zeta in Hrun. rewrite Hmlr, Hraw in Hrun.
  eexists. split; [exact Hrun|].
  cbn [vars g_risk_level g_probability].
  unfold effective_probability, band_of, age_bias_guard.
  unfold Py.number_gt_int, Py.number_lt_int.
  repeat split.
  - intros H35. rewrite (lt_35_not_gt_70 r H35). cbn [andb]. now rewrite H35.
  - intros H35 H70. rewrite (lt_70_not_gt_70 r H70). cbn [andb]. now rewrite H35, H70.
  - intros H70 Hguard. rewrite Hguard.
    now rewrite (not_lt_70_not_lt_35 r H70), H70.
  - now rewrite H.
  - now rewrite H.
Qed.

(** C5 (as amended). The BMI is the weight divided by the square of the
    height in metres, rounded to 2 decimals: 24.22 for 170 cm and 70 kg,
    40.0 for 150 cm and 90 kg. *)
Theorem bmi_formula_and_examples :
  (forall h w : Z, 100 <= h <= 220 ->
     bmi h w = inr (Py.round2
                      (PrimFloat.div (Py.float_of_int w)
                         (Py.float_pow2 (PrimFloat.div (Py.float_of_int h)
                                                       (Py.float_of_int 100)))))) /\
  bmi 170 70 = inr 24.22%float /\
  bmi 150 90 = inr 40%float.
Proof.
  split; [exact bmi_in_domain|]. split; vm_compute; reflexivity.
Qed.

(** C6 (as amended). When rule A does not fire and every contribution is
    a number (not NaN), the [explanation] list is the column/contribution
    pairs rearranged by absolute contribution descending, equal absolute
    contributions in column order, and the three statements shown are
    those of its first three entries. *)
Theorem attribution_top3_ranked (i : Inputs) (g : Globals) (b : float) :
  bmi (height_cm i) (weight_kg i) = inr b ->
  medically_low_risk i b = false ->
  Forall is_number (explainer (user_data i b)) ->
  exists w ranked,
    evaluate predict_proba explainer columns i g = inr w /\
    Permutation (indexed (combine columns (explainer (user_data i b)))) ranked /\
    StronglySorted outranks ranked /\
    g_explanation (vars w) = Some (map snd ranked) /\
    StronglySorted outranks (firstn 3 ranked) /\
    attribution_statements w
    = map (fun fv => influence_message (fst fv) (snd fv))
          (map snd (firstn 3 ranked)).
Proof.
  intros Hb Hmlr Hnum.
  destruct (bmi_inv i b Hb) as [hm [E1 E2]].
  pose proof (evaluate_run predict_proba explainer columns i g b hm E1 E2) as Hrun.
  cbv zeta in Hrun. rewrite Hmlr in Hrun.
  set (l := combine columns (explainer (user_data i b))) in *.
  assert (Hok : Forall (fun fv : string * float => is_number (snd fv)) l).
  { rewrite Forall_forall in *. intros [f v] Hin. cbn.
    apply Hnum. now apply in_combine_r in Hin. }
  destruct (sorted_reverse_ranked abs_impact_lt
              (fun fv : string * float => is_number (snd fv))) with (l := l)
    as [ranked [Hperm [Hmap Hsorted]]]; trivial.
  { intros x. unfold abs_impact_lt. apply ltb_irrefl. }
  { intros x y z. unfold abs_impact_lt. apply ltb_trans. }
  { intros x y z Hx Hy Hz. unfold abs_impact_lt.
    apply ltb_negtrans; now apply abs_is_number. }
  assert (Hranked : StronglySorted outranks ranked).
  { apply StronglySorted_weaken
      with (P := fun p : nat * (string * float) => is_number (snd (snd p)))
           (R := ranked_before abs_impact_lt); trivial.
    - intros p q Hp Hq [Hlt | [Hnlt Hidx]]; [now left|].
      unfold abs_impact_lt, Py.abs in *.
      destruct (PrimFloat.ltb (PrimFloat.abs (snd (snd q)))
                              (PrimFloat.abs (snd (snd p)))) eqn:E.
      + now left.
      + right. split; [|assumption].
        apply not_ltb_eqb; trivial; now apply abs_is_number.
    - eapply Permutation_Forall; [exact Hperm|].
      rewrite Forall_forall in *. intros [k fv] Hin. cbn.
      apply Hok. unfold indexed in Hin. now apply in_combine_r in Hin. }
  eexists. exists ranked.
  split; [exact Hrun|]. split; [assumption|]. split; [assumption|].
  split; [cbn; now rewrite Hmap|].
  split; [now apply StronglySorted_firstn|].
  unfold attribution_statements. cbn [calls].
  now rewrite script_calls_info, <- Hmap, firstn_map.
Qed.

(** C7. The value passed to the meter is 0.25 when the band is LOW, 0.60
    when it is MODERATE and 0.90 when it is HIGH, and the meter is set
    exactly once. *)
Theorem meter_matches_band (i : Inputs) (g : Globals) (b : float) :
  bmi (height_cm i) (weight_kg i) = inr b ->
  exists w band,
    evaluate predict_proba explainer columns i g = inr w /\
    g_risk_level (vars w) = Some band /\
    is_band band /\
    (band = "LOW" -> meter_values w = [0.25%float]) /\
    (band = "MODERATE" -> meter_values w = [0.60%float]) /\
    (band = "HIGH" -> meter_values w = [0.90%float]).
Proof.
  intros Hb.
  destruct (bmi_inv i b Hb) as [hm [E1 E2]].
  pose proof (evaluate_run predict_proba explainer columns i g b hm E1 E2) as Hrun.
  cbv zeta in Hrun.
  eexists. eexists. split; [exact Hrun|].
  split; [reflexivity|].
  unfold meter_values. cbn [calls]. rewrite script_calls_progress.
  unfold band_of, is_band.
  destruct (medically_low_risk i b); [|destruct (Py.number_lt_int _ 35);
    [|destruct (Py.number_lt_int _ 70)]];
    (split; [tauto|]); repeat split; intros H; try discriminate H; reflexivity.
Qed.

(** C8. The decision reads no variable left by earlier code: started from
    any two sets of bindings, the evaluation of the same inputs gives the
    same band, probability, ranking and calls; so does a second
    evaluation started from the bindings the first one left. *)
Theorem evaluation_is_idempotent (i : Inputs) (g1 g2 : Globals) :
  observation (evaluate predict_proba explainer columns i g1)
  = observation (evaluate predict_proba explainer columns i g2)
  /\
  observation (match evaluate predict_proba explainer columns i g1 with
               | inl e => inl e
               | inr w => evaluate predict_proba explainer columns i (vars w)
               end)
  = observation (evaluate predict_proba explainer columns i g1).
Proof.
  destruct (bmi (height_cm i) (weight_kg i)) as [e|b] eqn:Hb.
  - rewrite !(evaluate_error _ _ _ i _ e Hb). split; reflexivity.
  - destruct (bmi_inv i b Hb) as [hm [E1 E2]].
    rewrite (evaluate_run _ _ _ i g1 b hm E1 E2), (evaluate_run _ _ _ i g2 b hm E1 E2).
    cbv beta iota. rewrite (evaluate_run _ _ _ i _ b hm E1 E2).
    unfold observation, attribution_ranking. cbn.
    destruct (medically_low_risk i b); split; reflexivity.
Qed.

(** C9. For every input inside the widgets' ranges the evaluation raises
    no exception and ends with exactly one band, which is LOW, MODERATE
    or HIGH. *)
Theorem evaluation_total_in_domain (i : Inputs) (g : Globals) :
  in_domain i ->
  exists w band,
    evaluate predict_proba explainer columns i g = inr w /\
    g_risk_level (vars w) = Some band /\
    is_band band.
Proof.
  intros (_ & _ & Hh & _).
  pose proof (bmi_in_domain (height_cm i) (weight_kg i) Hh) as Hb.
  destruct (bmi_inv i _ Hb) as [hm [E1 E2]].
  pose proof (evaluate_run predict_proba explainer columns i g _ hm E1 E2) as Hrun.
  cbv zeta in Hrun.
  eexists. eexists. split; [exact Hrun|]. split; [reflexivity|].
  unfold band_of, is_band.
  destruct (medically_low_risk i _); [tauto|].
  destruct (Py.number_lt_int _ 35); [tauto|].
  destruct (Py.number_lt_int _ 70); tauto.
Qed.

(** C10. Each attribution statement shown is the feature name followed
    by "had a stronger influence" exactly when the contribution is > 0,
    and by "had less influence" otherwise; a contribution of exactly 0 is
    reported as "had less influence". *)
Theorem attribution_direction (i : Inputs) (g : Globals) (b : float) :
  bmi (height_cm i) (weight_kg i) = inr b ->
  medically_low_risk i b = false ->
  exists w expl,
    evaluate predict_proba explainer columns i g = inr w /\
    g_explanation (vars w) = Some expl /\
    attribution_statements w
    = map (fun fv => if PrimFloat.ltb 0%float (snd fv)
                     then "• " ++ fst fv ++ " had a stronger influence"
                     else "• " ++ fst fv ++ " had less influence")
          (firstn 3 expl) /\
    (forall feature value,
       influence_message feature value
       = "• " ++ feature ++ " had a stronger influence"
       <-> PrimFloat.ltb 0%float value = true) /\
    (forall feature value,
       influence_message feature value
       = "• " ++ feature ++ " had less influence"
       <-> PrimFloat.ltb 0%float value = false) /\
    (forall feature,
       influence_message feature 0%float
       = "• " ++ feature ++ " had less influence").
Proof.
  intros Hb Hmlr.
  destruct (bmi_inv i b Hb) as [hm [E1 E2]].
  pose proof (evaluate_run predict_proba explainer columns i g b hm E1 E2) as Hrun.
  cbv zeta in Hrun. rewrite Hmlr in Hrun.
  assert (Hmsg : forall feature value,
             influence_message feature value
             = if PrimFloat.ltb 0%float value
               then "• " ++ feature ++ " had a stronger influence"
               else "• " ++ feature ++ " had less influence")
    by reflexivity.
  assert (Hdiff : forall feature,
             "• " ++ feature ++ " had a stronger influence"
             <> "• " ++ feature ++ " had less influence")
    by exact stronger_text_not_less_text.
  eexists. eexists. split; [exact Hrun|]. split; [reflexivity|].
  split; [|split; [|split]].
  - unfold attribution_statements. cbn [calls]. rewrite script_calls_info.
    apply map_ext. intros [f v]. apply Hmsg.
  - intros feature value. rewrite Hmsg.
    destruct (PrimFloat.ltb 0%float value); split; trivial; intros H.
    + symmetry in H. now apply Hdiff in H.
    + discriminate.
  - intros feature value. rewrite Hmsg.
    destruct (PrimFloat.ltb 0%float value); split; trivial; intros H.
    + now apply Hdiff in H.
    + discriminate.
  - reflexivity.
Qed.

End Claims.

(* ===================================================================== *)
(** ** The claims on sample evaluations *)
(* ===================================================================== *)

(** A model that answers 0.95 is overruled by rule A. *)
Lemma rule_A_forces_low_witness :
  exists w,
    evaluate (fun _ => 0.95%float) (fun _ => sample_impacts) sample_columns
             low_risk_person no_globals = inr w /\
    g_risk_level (vars w) = Some "LOW" /\
    attribution_engine_invoked w = false.
Proof.
  apply (rule_A_forces_low (fun _ => 0.95%float) (fun _ => sample_impacts)
           sample_columns low_risk_person no_globals 24.22%float);
    [vm_compute; reflexivity | reflexivity | reflexivity | reflexivity].
Defined.

(** Glucose 105 without family history: a raw 80 becomes 55. *)
Lemma bias_guard_clamps_to_moderate_witness :
  exists w,
    evaluate (fun _ => 0.8%float) (fun _ => sample_impacts) sample_columns
             guarded_person no_globals = inr w /\
    g_probability (vars w) = Some (Py.Int 55) /\
    g_risk_level (vars w) = Some "MODERATE".
Proof.
  apply (bias_guard_clamps_to_moderate (fun _ => 0.8%float)
           (fun _ => sample_impacts) sample_columns guarded_person no_globals
           24.22%float);
    [vm_compute; reflexivity | reflexivity | reflexivity | reflexivity
     | reflexivity].
Defined.

Lemma banding_witness :
  exists w p,
    evaluate (fun _ => 0.5%float) (fun _ => sample_impacts) sample_columns
             default_person no_globals = inr w /\
    g_medically_low_risk (vars w) = Some (medically_low_risk default_person 24.22%float) /\
    g_probability (vars w) = Some p /\
    (medically_low_risk default_person 24.22%float = true ->
       g_risk_level (vars w) = Some "LOW") /\
    (medically_low_risk default_person 24.22%float = false ->
       (Py.number_lt_int p 35 = true -> g_risk_level (vars w) = Some "LOW") /\
       (Py.number_lt_int p 35 = false -> Py.number_lt_int p 70 = true ->
          g_risk_level (vars w) = Some "MODERATE") /\
       (Py.number_lt_int p 35 = false -> Py.number_lt_int p 70 = false ->
          g_risk_level (vars w) = Some "HIGH") /\
       (p = Py.Float 35 -> g_risk_level (vars w) = Some "MODERATE") /\
       (p = Py.Float 70 -> g_risk_level (vars w) = Some "HIGH")).
Proof.
  apply (banding (fun _ => 0.5%float) (fun _ => sample_impacts) sample_columns
           default_person no_globals 24.22%float).
  vm_compute; reflexivity.
Defined.

(** The claim as first stated fails: outside rule A's range, with glucose
    105 and no family history, a raw probability of 80 gives MODERATE. *)
Lemma raw_80_gives_moderate_under_guard :
  bmi (height_cm guarded_person) (weight_kg guarded_person) = inr 24.22%float /\
  medically_low_risk guarded_person 24.22%float = false /\
  model_probability (fun _ => 0.8%float) (user_data guarded_person 24.22%float)
  = Py.Float 80 /\
  exists w,
    evaluate (fun _ => 0.8%float) (fun _ => sample_impacts) sample_columns
             guarded_person no_globals = inr w /\
    g_risk_level (vars w) = Some "MODERATE" /\
    g_risk_level (vars w) <> Some "HIGH".
Proof.
  split; [vm_compute; reflexivity|]. split; [reflexivity|].
  split; [vm_compute; reflexivity|].
  eexists. split; [vm_compute; reflexivity|].
  split; [reflexivity | discriminate].
Qed.

Lemma band_by_raw_probability_witness :
  exists w,
    evaluate (fun _ => 0.8%float) (fun _ => sample_impacts) sample_columns
             default_person no_globals = inr w /\
    (Py.float_lt_int 80 35 = true -> g_risk_level (vars w) = Some "LOW") /\
    (Py.float_lt_int 80 35 = false -> Py.float_lt_int 80 70 = true ->
       g_risk_level (vars w) = Some "MODERATE") /\
    (Py.float_lt_int 80 70 = false ->
     age_bias_guard (Py.Float 80) default_person = false ->
       g_risk_level (vars w) = Some "HIGH") /\
    (age_bias_guard (Py.Float 80) default_person = true ->
       g_probability (vars w) = Some (Py.Int 55) /\
       g_risk_level (vars w) = Some "MODERATE").
Proof.
  apply (band_by_raw_probability (fun _ => 0.8%float) (fun _ => sample_impacts)
           sample_columns default_person no_globals 24.22%float 80%float);
    [vm_compute; reflexivity | reflexivity | vm_compute; reflexivity].
Defined.

(** The BMI of 170 cm and 70 kg is not 19.03. *)
Lemma bmi_170_70_is_not_19_03 : bmi 170 70 <> inr 19.03%float.
Proof.
  intros H.
  apply (f_equal (fun r : Py.exn + float =>
                    match r with
                    | inr x => PrimFloat.ltb x 20%float
                    | inl _ => false
                    end)) in H.
  vm_compute in H. discriminate.
Qed.

Lemma bmi_formula_and_examples_witness :
  100 <= 170 <= 220 /\
  bmi 170 70 = inr (Py.round2
                      (PrimFloat.div (Py.float_of_int 70)
                         (Py.float_pow2 (PrimFloat.div (Py.float_of_int 170)
                                                       (Py.float_of_int 100))))).
Proof.
  split; [lia|]. apply (proj1 bmi_formula_and_examples 170 70). lia.
Defined.

Lemma attribution_top3_ranked_witness :
  exists w ranked,
    evaluate (fun _ => 0.8%float) (fun _ => sample_impacts) sample_columns
             default_person no_globals = inr w /\
    Permutation (indexed (combine sample_columns sample_impacts)) ranked /\
    StronglySorted outranks ranked /\
    g_explanation (vars w) = Some (map snd ranked) /\
    StronglySorted outranks (firstn 3 ranked) /\
    attribution_statements w
    = map (fun fv => influence_message (fst fv) (snd fv))
          (map snd (firstn 3 ranked)).
Proof.
  apply (attribution_top3_ranked (fun _ => 0.8%float) (fun _ => sample_impacts)
           sample_columns default_person no_globals 24.22%float);
    [vm_compute; reflexivity | reflexivity
     | repeat constructor; reflexivity].
Defined.

Lemma meter_matches_band_witness :
  exists w band,
    evaluate (fun _ => 0.5%float) (fun _ => sample_impacts) sample_columns
             default_person no_globals = inr w /\
    g_risk_level (vars w) = Some band /\
    is_band band /\
    (band = "LOW" -> meter_values w = [0.25%float]) /\
    (band = "MODERATE" -> meter_values w = [0.60%float]) /\
    (band = "HIGH" -> meter_values w = [0.90%float]).
Proof.
  apply (meter_matches_band (fun _ => 0.5%float) (fun _ => sample_impacts)
           sample_columns default_person no_globals 24.22%float).
  vm_compute; reflexivity.
Defined.

Lemma evaluation_total_in_domain_witness :
  in_domain default_person /\
  exists w band,
    evaluate (fun _ => 0.5%float) (fun _ => sample_impacts) sample_columns
             default_person no_globals = inr w /\
    g_risk_level (vars w) = Some band /\
    is_band band.
Proof.
  assert (D : in_domain default_person).
  { unfold in_domain, default_person. cbn. repeat split; try lia; reflexivity. }
  split; [exact D|].
  apply (evaluation_total_in_domain (fun _ => 0.5%float) (fun _ => sample_impacts)
           sample_columns default_person no_globals D).
Defined.

Lemma attribution_direction_witness :
  exists w expl,
    evaluate (fun _ => 0.8%float) (fun _ => sample_impacts) sample_columns
             default_person no_globals = inr w /\
    g_explanation (vars w) = Some expl /\
    attribution_statements w
    = map (fun fv => if PrimFloat.ltb 0%float (snd fv)
                     then "• " ++ fst fv ++ " had a stronger influence"
                     else "• " ++ fst fv ++ " had less influence")
          (firstn 3 expl) /\
    (forall feature value,
       influence_message feature value
       = "• " ++ feature ++ " had a stronger influence"
       <-> PrimFloat.ltb 0%float value = true) /\
    (forall feature value,
       influence_message feature value
       = "• " ++ feature ++ " had less influence"
       <-> PrimFloat.ltb 0%float value = false) /\
    (forall feature,
       influence_message feature 0%float
       = "• " ++ feature ++ " had less influence").
Proof.
  apply (attribution_direction (fun _ => 0.8%float) (fun _ => sample_impacts)
           sample_columns default_person no_globals 24.22%float);
    [vm_compute; reflexivity | reflexivity].
Defined.

(** The claim as first stated fails when a contribution is NaN, which no
    comparison ranks: with contributions 1, NaN, 2, 0, ... the reversed
    list is one ascending run for [list.sort], the pairs stay in column
    order, and the first statement shown is for a contribution of 1 while
    the third is for one of 2. *)
Lemma nan_contribution_is_not_ranked :
  exists w,
    evaluate (fun _ => 0.8%float) (fun _ => unrankable_impacts) sample_columns
             default_person no_globals = inr w /\
    g_medically_low_risk (vars w) = Some false /\
    g_explanation (vars w) = Some (combine sample_columns unrankable_impacts) /\
    attribution_statements w
    = ["• Pregnancies had a stronger influence";
       "• Glucose had less influence";
       "• BloodPressure had a stronger influence"] /\
    firstn 3 (combine sample_columns unrankable_impacts)
    = [("Pregnancies", 1%float); ("Glucose", PrimFloat.nan);
       ("BloodPressure", 2%float)] /\
    PrimFloat.ltb (PrimFloat.abs 1%float) (PrimFloat.abs 2%float) = true.
Proof.
  eexists. split; [vm_compute; reflexivity|].
  repeat split; reflexivity.
Qed.

(** The run of the sample evaluation, call by call. *)
Example default_person_run :
  observation (evaluate (fun _ => 0.8%float) (fun _ => sample_impacts)
                        sample_columns default_person no_globals)
  = inr (Some "HIGH", Some (Py.Float 80),
         Some [("DiabetesPedigreeFunction", 5%float); ("Age", (-5)%float);
               ("BloodPressure", 3%float); ("SkinThickness", (-3)%float);
               ("Glucose", (-2)%float); ("BMI", 2%float);
               ("Pregnancies", 1%float); ("Insulin", 0%float)],
         script_calls 24.22%float (user_data default_person 24.22%float) false "HIGH"
           [("DiabetesPedigreeFunction", 5%float); ("Age", (-5)%float);
            ("BloodPressure", 3%float)]).
Proof. vm_compute. reflexivity. Qed.

(** A raw probability of exactly 35 is MODERATE, of exactly 70 HIGH. *)
Example raw_35_is_moderate :
  observation (evaluate (fun _ => 0.35%float) (fun _ => []) [] default_person no_globals)
  = inr (Some "MODERATE", Some (Py.Float 35), Some [],
         script_calls 24.22%float (user_data default_person 24.22%float) false
           "MODERATE" []).
Proof. vm_compute. reflexivity. Qed.

Example raw_70_is_high :
  observation (evaluate (fun _ => 0.7%float) (fun _ => []) [] default_person no_globals)
  = inr (Some "HIGH", Some (Py.Float 70), Some [],
         script_calls 24.22%float (user_data default_person 24.22%float) false
           "HIGH" []).
Proof. vm_compute. reflexivity. Qed.

(** The two BMI examples do not depend on how [pow] rounds the square:
    the neighbouring floats of the squared height give the same BMI. *)
Example bmi_examples_robust :
  map (fun sq => Py.round2 (PrimFloat.div 70 sq))
      [PrimFloat.next_down (Py.float_pow2 1.7); PrimFloat.next_up (Py.float_pow2 1.7)]
  = [24.22; 24.22]%float /\
  map (fun sq => Py.round2 (PrimFloat.div 90 sq))
      [PrimFloat.next_down (Py.float_pow2 1.5); PrimFloat.next_up (Py.float_pow2 1.5)]
  = [40; 40]%float.
Proof. split; vm_compute; reflexivity. Qed.

(** A height of 0 (outside the widget's range) raises. *)
Example bmi_zero_height : bmi 0 70 = inl Py.ZeroDivisionError.
Proof. vm_compute. reflexivity. Qed.

(* ===================================================================== *)
(** ** More of the script: the page, and further observations *)
(* ===================================================================== *)

Section Page.

Variable predict_proba : list float -> float.
Variable explainer : list float -> list float.
Variable columns : list string.

(** One run of the page from the BMI block on (lines 55-184).  The values
    of the [st.number_input] widgets are the inputs [i]; every other
    Streamlit call of these lines is made in order: the BMI caption, the
    two section headers and the glucose hint, and the evaluation under
    [if st.button("Check Diabetes Risk")]. *)
Definition page (pressed : bool) (i : Inputs) : M unit :=
  bmi_calculation i ;;
  emit (st_subheader "🩸 Health Measurements") ;;
  emit (st_caption "💡 Normal fasting glucose is usually between 70–100 mg/dL") ;;
  emit (st_subheader "🧬 Background Information") ;;
  (if pressed then check_diabetes_risk predict_proba explainer columns i
   else ret tt).

Definition render (pressed : bool) (i : Inputs) (g : Globals) : Py.exn + World :=
  match runStateT (page pressed i) {| vars := g; calls := [] |} with
  | inl e => inl e
  | inr (_, w) => inr w
  end.

End Page.

(** The feature rows passed to the model and to the explainer. *)
Definition model_rows (w : World) : list (list float) :=
  flat_map (fun c => match c with predict_proba_call x => [x] | _ => [] end)
           (calls w).

Definition explainer_rows (w : World) : list (list float) :=
  flat_map (fun c => match c with explainer_call x => [x] | _ => [] end)
           (calls w).

(** The coloured status boxes ([st.success], [st.warning], [st.error]). *)
Definition is_status_call (c : call) : bool :=
  match c with
  | st_success _ | st_warning _ | st_error _ => true
  | _ => false
  end.

Definition status_calls (w : World) : list call :=
  filter is_status_call (calls w).

(** The texts written with [st.write]. *)
Definition written_texts (w : World) : list string :=
  flat_map (fun c => match c with st_write s => [s] | _ => [] end) (calls w).

(** The integers [lo, lo+1, ..., lo+n-1]. *)
Definition zrange (lo : Z) (n : nat) : list Z :=
  map (fun k => lo + Z.of_nat k) (seq 0 n).

(** The BMI and its neighbours for one more kilogram and one more
    centimetre: it lies in [6.2, 200], does not decrease with the weight,
    does not increase with the height, and is unchanged by rounding again. *)
Definition bmi_behaves (h w : Z) : bool :=
  match bmi h w, bmi h (w + 1), bmi (h + 1) w with
  | inr b, inr bw, inr bh =>
      PrimFloat.leb 6.2%float b && PrimFloat.leb b 200%float
      && PrimFloat.leb b bw && PrimFloat.leb bh b
      && PrimFloat.Leibniz.eqb (Py.round2 b) b
  | _, _, _ => false
  end.

(** Whether the squared height in metres is 0, the condition under which
    line 57 divides by zero. *)
Definition squared_height_is_zero (h : Z) : bool :=
  PrimFloat.eqb
    (Py.float_pow2 (PrimFloat.div (Py.float_of_int h) (Py.float_of_int 100)))
    0%float.

(** The BMI as a float, NaN where it raises. *)
Definition bmi_or_nan (h w : Z) : float :=
  match bmi h w with
  | inr b => b
  | inl _ => PrimFloat.nan
  end.

(* ===================================================================== *)
(** ** Further facts: [<=] on floats, integer ranges, list order *)
(* ===================================================================== *)

Lemma leb_iff (x y : float) :
  PrimFloat.leb x y = true
  <-> is_number x /\ is_number y /\ PrimFloat.ltb y x = false.
Proof.
  rewrite leb_spec, ltb_spec. unfold SFleb, SFltb, is_number.
  destruct (PrimFloat.is_nan x) eqn:Nx.
  { apply Prim2SF_nan in Nx. rewrite Nx, SFcompare_nan_l.
    split; [discriminate | intros [H _]; discriminate]. }
  destruct (PrimFloat.is_nan y) eqn:Ny.
  { apply Prim2SF_nan in Ny. rewrite Ny, SFcompare_nan_r.
    split; [discriminate | intros [_ [H _]]; discriminate]. }
  rewrite !SFcompare_rank by (now apply is_number_SF).
  rewrite (lex_compare_antisym (rank (Prim2SF x)) (rank (Prim2SF y))).
  destruct (lex_compare (rank (Prim2SF x)) (rank (Prim2SF y))); cbn;
    split; try discriminate; try tauto; intros [_ [_ H]]; discriminate.
Qed.

Lemma leb_trans (x y z : float) :
  PrimFloat.leb x y = true -> PrimFloat.leb y z = true -> PrimFloat.leb x z = true.
Proof.
  rewrite !leb_iff. intros (Hx & Hy & Hyx) (_ & Hz & Hzy).
  repeat split; trivial. now apply ltb_negtrans with y.
Qed.

Lemma leb_refl (x : float) : is_number x -> PrimFloat.leb x x = true.
Proof.
  intros Hx. apply leb_iff. repeat split; trivial. apply ltb_irrefl.
Qed.

(** A sequence of floats indexed by integers that never decreases from
    one index to the next never decreases at all. *)
Lemma leb_chain (f : Z -> float) (a b : Z) :
  (forall z, a <= z < b -> PrimFloat.leb (f z) (f (z + 1)) = true) ->
  forall z z', a <= z -> z < z' -> z' <= b -> PrimFloat.leb (f z) (f z') = true.
Proof.
  intros Hstep z z' Hz Hlt Hb.
  replace z' with (z + Z.of_nat (S (Z.to_nat (z' - z - 1)))) in * by lia.
  induction (Z.to_nat (z' - z - 1)) as [|n IH].
  - apply Hstep. lia.
  - apply leb_trans with (f (z + Z.of_nat (S n))).
    + apply IH; lia.
    + replace (z + Z.of_nat (S (S n))) with (z + Z.of_nat (S n) + 1) by lia.
      apply Hstep. lia.
Qed.

Lemma in_zrange (lo : Z) (n : nat) (z : Z) :
  lo <= z < lo + Z.of_nat n -> In z (zrange lo n).
Proof.
  intros Hz. unfold zrange. apply in_map_iff.
  exists (Z.to_nat (z - lo)). split; [lia|]. apply in_seq. lia.
Qed.

Lemma forallb_zrange (P : Z -> bool) (lo : Z) (n : nat) :
  forallb P (zrange lo n) = true ->
  forall z, lo <= z < lo + Z.of_nat n -> P z = true.
Proof.
  intros H z Hz. rewrite forallb_forall in H. now apply H, in_zrange.
Qed.

Lemma StronglySorted_firstn_skipn {A : Type} (R : A -> A -> Prop) (n : nat)
      (l : list A) (x y : A) :
  StronglySorted R l -> In x (firstn n l) -> In y (skipn n l) -> R x y.
Proof.
  intros HS. revert n. induction HS as [|a l Hl IH Ha]; intros [|n]; cbn;
    try contradiction.
  intros [<- | Hx] Hy.
  - rewrite Forall_forall in Ha. apply Ha.
    rewrite <- (firstn_skipn n l). apply in_or_app. now right.
  - now apply (IH n).
Qed.

(* ===================================================================== *)
(** ** Further properties of the BMI *)
(* ===================================================================== *)

Lemma bmi_raises_iff (h w : Z) :
  bmi h w = inl Py.ZeroDivisionError <-> squared_height_is_zero h = true.
Proof.
  unfold bmi, height_m_expr, bmi_expr, Py.int_truediv, Py.int_float_truediv,
    squared_height_is_zero.
  cbn [Z.eqb].
  destruct (PrimFloat.eqb _ 0%float); split; trivial; discriminate.
Qed.

Lemma squared_height_zero_only_at_zero (h : Z) :
  -1000 <= h <= 1000 -> squared_height_is_zero h = (h =? 0).
Proof.
  intros Hh.
  assert (Hall : forallb (fun z => Bool.eqb (squared_height_is_zero z) (z =? 0))
                         (zrange (-1000) 2001) = true) by (vm_compute; reflexivity).
  apply eqb_prop. apply (forallb_zrange _ _ _ Hall). lia.
Qed.

Lemma bmi_behaves_in_domain (h w : Z) :
  100 <= h <= 220 -> 30 <= w <= 200 -> bmi_behaves h w = true.
Proof.
  intros Hh Hw.
  assert (Hall : forallb (fun y => forallb (fun z => bmi_behaves y z) (zrange 30 171))
                         (zrange 100 121) = true) by (vm_compute; reflexivity).
  apply (forallb_zrange (fun z => bmi_behaves h z) 30 171); [|lia].
  apply (forallb_zrange _ _ _ Hall). lia.
Qed.

Lemma bmi_behaves_inv (h w : Z) :
  bmi_behaves h w = true ->
  exists b bw bh,
    bmi h w = inr b /\ bmi h (w + 1) = inr bw /\ bmi (h + 1) w = inr bh /\
    PrimFloat.leb 6.2%float b = true /\ PrimFloat.leb b 200%float = true /\
    PrimFloat.leb b bw = true /\ PrimFloat.leb bh b = true /\
    Py.round2 b = b.
Proof.
  unfold bmi_behaves.
  destruct (bmi h w) as [|b]; [discriminate|].
  destruct (bmi h (w + 1)) as [|bw]; [discriminate|].
  destruct (bmi (h + 1) w) as [|bh]; [discriminate|].
  rewrite !andb_true_iff. intros [[[[H1 H2] H3] H4] H5].
  apply FloatAxioms.Leibniz.eqb_spec in H5.
  exists b, bw, bh. repeat split; assumption.
Qed.

Lemma bmi_or_nan_value (h w : Z) (b : float) :
  bmi h w = inr b -> bmi_or_nan h w = b.
Proof. unfold bmi_or_nan. now intros ->. Qed.

(** X2. Among the heights from -1000 to 1000 cm, and for every weight of
    the widget's range, the BMI raises [ZeroDivisionError] exactly at
    height 0. *)
Theorem bmi_raises_exactly_at_height_zero (h w : Z) :
  -1000 <= h <= 1000 -> 30 <= w <= 200 ->
  (bmi h w = inl Py.ZeroDivisionError <-> h = 0).
Proof.
  intros Hh _. rewrite bmi_raises_iff, (squared_height_zero_only_at_zero h Hh).
  apply Z.eqb_eq.
Qed.

(** X3. For every height and weight the widgets allow, the BMI is defined
    and lies between 6.2 and 200. *)
Theorem bmi_bounds_in_domain (h w : Z) :
  100 <= h <= 220 -> 30 <= w <= 200 ->
  exists b, bmi h w = inr b /\
            PrimFloat.leb 6.2%float b = true /\ PrimFloat.leb b 200%float = true.
Proof.
  intros Hh Hw.
  destruct (bmi_behaves_inv h w (bmi_behaves_in_domain h w Hh Hw))
    as (b & bw & bh & Hb & _ & _ & Hlo & Hhi & _).
  now exists b.
Qed.

(** X4. Within the widgets' ranges, a larger weight at the same height
    never gives a smaller BMI. *)
Theorem bmi_monotone_in_weight (h w w' : Z) (b b' : float) :
  100 <= h <= 220 -> 30 <= w -> w <= w' -> w' <= 200 ->
  bmi h w = inr b -> bmi h w' = inr b' ->
  PrimFloat.leb b b' = true.
Proof.
  intros Hh Hw Hww Hw' Hb Hb'.
  rewrite <- (bmi_or_nan_value h w b Hb), <- (bmi_or_nan_value h w' b' Hb').
  destruct (Z.eq_dec w w') as [<- | Hne].
  - destruct (bmi_behaves_inv h w (bmi_behaves_in_domain h w Hh ltac:(lia)))
      as (c & _ & _ & Hc & _ & _ & Hlo & _).
    rewrite (bmi_or_nan_value h w c Hc).
    apply leb_refl. now apply leb_iff in Hlo.
  - apply (leb_chain (bmi_or_nan h) 30 200); try lia.
    intros z Hz.
    destruct (bmi_behaves_inv h z (bmi_behaves_in_domain h z Hh ltac:(lia)))
      as (c & cw & _ & Hc & Hcw & _ & _ & _ & Hstep & _).
    now rewrite (bmi_or_nan_value h z c Hc), (bmi_or_nan_value h (z + 1) cw Hcw).
Qed.

(** X5. Within the widgets' ranges, a larger height at the same weight
    never gives a larger BMI. *)
Theorem bmi_antitone_in_height (h h' w : Z) (b b' : float) :
  100 <= h -> h <= h' -> h' <= 220 -> 30 <= w <= 200 ->
  bmi h w = inr b -> bmi h' w = inr b' ->
  PrimFloat.leb b' b = true.
Proof.
  intros Hh Hhh Hh' Hw Hb Hb'.
  rewrite <- (bmi_or_nan_value h w b Hb), <- (bmi_or_nan_value h' w b' Hb').
  destruct (Z.eq_dec h h') as [<- | Hne].
  - destruct (bmi_behaves_inv h w (bmi_behaves_in_domain h w ltac:(lia) Hw))
      as (c & _ & _ & Hc & _ & _ & Hlo & _).
    rewrite (bmi_or_nan_value h w c Hc).
    apply leb_refl. now apply leb_iff in Hlo.
  - replace h with (- (- h)) by lia. replace h' with (- (- h')) by lia.
    apply (leb_chain (fun z => bmi_or_nan (- z) w) (-220) (-100)); try lia.
    intros z Hz.
    destruct (bmi_behaves_inv (- z - 1) w
                (bmi_behaves_in_domain (- z - 1) w ltac:(lia) Hw))
      as (c & _ & ch & Hc & _ & Hch & _ & _ & _ & Hstep & _).
    replace (- z - 1 + 1) with (- z) in Hch by lia.
    replace (- (z + 1)) with (- z - 1) by lia.
    now rewrite (bmi_or_nan_value (- z) w ch Hch), (bmi_or_nan_value (- z - 1) w c Hc).
Qed.

(** X6. Within the widgets' ranges the BMI is a fixed point of the
    rounding: rounding it to 2 decimals again returns the same float. *)
Theorem bmi_rounding_is_stable (h w : Z) (b : float) :
  100 <= h <= 220 -> 30 <= w <= 200 ->
  bmi h w = inr b -> Py.round2 b = b.
Proof.
  intros Hh Hw Hb.
  destruct (bmi_behaves_inv h w (bmi_behaves_in_domain h w Hh Hw))
    as (c & _ & _ & Hc & _ & _ & _ & _ & _ & _ & Hround).
  assert (c = b) by congruence. now subst.
Qed.

(* ===================================================================== *)
(** ** Further properties of an evaluation *)
(* ===================================================================== *)

Ltac by_meter_cases :=
  unfold meter_calls;
  repeat match goal with
         | |- context [String.eqb ?a ?b] => destruct (String.eqb a b)
         end;
  reflexivity.

Ltac by_attribution_calls expl :=
  unfold attribution_calls;
  induction (firstn 3 expl) as [|[? ?] ? ?]; cbn; trivial.

Lemma script_calls_model_rows (b : float) (x : list float) (mlr : bool)
      (band : string) (expl : list (string * float)) :
  flat_map (fun c => match c with predict_proba_call y => [y] | _ => [] end)
           (script_calls b x mlr band expl) = [x].
Proof.
  assert (Hm : flat_map (fun c => match c with predict_proba_call y => [y] | _ => [] end)
                        (meter_calls band) = []) by by_meter_cases.
  assert (Ha : flat_map (fun c => match c with predict_proba_call y => [y] | _ => [] end)
                        (attribution_calls expl) = []) by by_attribution_calls expl.
  unfold script_calls. rewrite !flat_map_app, Hm.
  destruct mlr; [|rewrite flat_map_app, Ha]; reflexivity.
Qed.

Lemma script_calls_explainer_rows (b : float) (x : list float) (mlr : bool)
      (band : string) (expl : list (string * float)) :
  flat_map (fun c => match c with explainer_call y => [y] | _ => [] end)
           (script_calls b x mlr band expl) = if mlr then [] else [x].
Proof.
  assert (Hm : flat_map (fun c => match c with explainer_call y => [y] | _ => [] end)
                        (meter_calls band) = []) by by_meter_cases.
  assert (Ha : flat_map (fun c => match c with explainer_call y => [y] | _ => [] end)
                        (attribution_calls expl) = []) by by_attribution_calls expl.
  unfold script_calls. rewrite !flat_map_app, Hm.
  destruct mlr; [|rewrite flat_map_app, Ha]; reflexivity.
Qed.

Lemma script_calls_info_low (b : float) (x : list float) (band : string)
      (expl : list (string * float)) :
  flat_map (fun c => match c with st_info s => [s] | _ => [] end)
           (script_calls b x true band expl) = [].
Proof.
  unfold script_calls. rewrite !flat_map_app, meter_calls_info. reflexivity.
Qed.

Lemma script_calls_status (b : float) (x : list float) (mlr : bool)
      (band : string) (expl : list (string * float)) :
  filter is_status_call (script_calls b x mlr band expl)
  = filter is_status_call (meter_calls band).
Proof.
  assert (Ha : filter is_status_call (attribution_calls expl) = [])
    by by_attribution_calls expl.
  unfold script_calls. rewrite !filter_app.
  destruct mlr; [|rewrite filter_app, Ha]; cbn; now rewrite app_nil_r.
Qed.

Lemma script_calls_written (b : float) (x : list float) (mlr : bool)
      (band : string) (expl : list (string * float)) :
  flat_map (fun c => match c with st_write s => [s] | _ => [] end)
           (script_calls b x mlr band expl)
  = [if mlr
     then "Your blood sugar level, body weight range, and lack of family history suggest a low diabetes risk based on common medical guidelines."
     else "This result is based on patterns observed in historical health data. It does not confirm or rule out diabetes.";
     "- Maintain a balanced diet and regular physical activity"
     ++ String (Ascii.ascii_of_nat 10)
          ("- Monitor blood sugar levels if advised"
           ++ String (Ascii.ascii_of_nat 10)
                "- Consult a healthcare professional for clarity")].
Proof.
  assert (Hm : flat_map (fun c => match c with st_write s => [s] | _ => [] end)
                        (meter_calls band) = []) by by_meter_cases.
  assert (Ha : flat_map (fun c => match c with st_write s => [s] | _ => [] end)
                        (attribution_calls expl) = []) by by_attribution_calls expl.
  unfold script_calls. rewrite !flat_map_app, Hm.
  destruct mlr; [|rewrite flat_map_app, Ha]; reflexivity.
Qed.

Lemma guard_fires_above_70 (r : float) (i : Inputs) :
  age_bias_guard (Py.Float r) i = true -> Py.float_gt_int r 70 = true.
Proof.
  unfold age_bias_guard, Py.number_gt_int. rewrite !andb_true_iff. tauto.
Qed.

Lemma gt_70_not_lt_70 (r : float) :
  Py.float_gt_int r 70 = true -> Py.float_lt_int r 70 = false.
Proof.
  intros H. destruct (Py.float_lt_int r 70) eqn:E; [|reflexivity].
  apply lt_70_not_gt_70 in E. congruence.
Qed.

Section Extras.

Variable predict_proba : list float -> float.
Variable explainer : list float -> list float.
Variable columns : list string.

(** The page without the button press, in closed form. *)
Lemma render_idle (i : Inputs) (g : Globals) (b hm : float) :
  height_m_expr (height_cm i) = inr hm ->
  bmi_expr (weight_kg i) hm = inr b ->
  render predict_proba explainer columns false i g
  = inr {| vars := set_bmi b (set_height_m hm g);
           calls := [st_caption_bmi b;
                     st_subheader "🩸 Health Measurements";
                     st_caption "💡 Normal fasting glucose is usually between 70–100 mg/dL";
                     st_subheader "🧬 Background Information"] |}.
Proof.
  intros E1 E2. unfold render, page, bmi_calculation.
  cbn. rewrite E1. cbn. rewrite E2. reflexivity.
Qed.

(** The page with the button pressed, in closed form: the bindings of the
    evaluation, and its calls with the three static ones after the BMI
    caption. *)
Lemma render_pressed (i : Inputs) (g : Globals) (b hm : float) :
  height_m_expr (height_cm i) = inr hm ->
  bmi_expr (weight_kg i) hm = inr b ->
  let x := user_data i b in
  let mlr := medically_low_risk i b in
  let p := effective_probability (model_probability predict_proba x) i in
  let band := band_of mlr p in
  let expl := Py.sorted_reverse abs_impact_lt (combine columns (explainer x)) in
  render predict_proba explainer columns true i g =
  inr {| vars :=
           {| g_height_m := Some hm; g_bmi := Some b; g_user_data := Some x;
              g_medically_low_risk := Some mlr; g_probability := Some p;
              g_risk_level := Some band;
              g_impacts := if mlr then g_impacts g else Some (explainer x);
              g_explanation := if mlr then g_explanation g else Some expl |};
         calls :=
           st_caption_bmi b
           :: st_subheader "🩸 Health Measurements"
           :: st_caption "💡 Normal fasting glucose is usually between 70–100 mg/dL"
           :: st_subheader "🧬 Background Information"
           :: tl (script_calls b x mlr band expl) |}.
Proof.
  intros E1 E2 x mlr p band expl.
  unfold render, page, bmi_calculation, check_diabetes_risk.
  cbn. rewrite E1. cbn. rewrite E2. cbn.
  fold x. fold mlr.
  subst p band.
  unfold script_calls, effective_probability, band_of, meter_calls, attribution_calls.
  destruct (age_bias_guard (model_probability predict_proba x) i); cbn;
    destruct mlr; cbn; try reflexivity;
    repeat match goal with
           | |- context [Py.number_lt_int ?a ?n] =>
               destruct (Py.number_lt_int a n); cbn
           end;
    rewrite (for_each_calls _
               (fun '(feature, value) => st_info (influence_message feature value)))
      by (intros [f v] w'; reflexivity);
    cbn; rewrite <- ?app_assoc; reflexivity.
Qed.

(** X7. When rule A holds and the raw probability is above 70, both rules
    apply: the probability variable is replaced by 55 and the band is LOW. *)
Theorem rule_A_wins_over_bias_guard (i : Inputs) (g : Globals) (b : float) :
  bmi (height_cm i) (weight_kg i) = inr b ->
  medically_low_risk i b = true ->
  Py.number_gt_int (model_probability predict_proba (user_data i b)) 70 = true ->
  exists w, evaluate predict_proba explainer columns i g = inr w /\
            g_probability (vars w) = Some (Py.Int 55) /\
            g_risk_level (vars w) = Some "LOW".
Proof.
  intros Hb Hmlr Hp.
  destruct (bmi_inv i b Hb) as [hm [E1 E2]].
  pose proof (evaluate_run predict_proba explainer columns i g b hm E1 E2) as Hrun.
  cbv zeta in Hrun.
  assert (Hguard : age_bias_guard (model_probability predict_proba (user_data i b)) i = true).
  { unfold age_bias_guard. rewrite Hp.
    unfold medically_low_risk in Hmlr. rewrite !andb_true_iff in Hmlr.
    destruct Hmlr as [[Hg Hd] _]. rewrite Hd.
    apply Z.ltb_lt in Hg. now rewrite (proj2 (Z.ltb_lt (glucose i) 110)) by lia. }
  unfold effective_probability in Hrun. rewrite Hguard, Hmlr in Hrun.
  eexists. split; [exact Hrun|]. split; reflexivity.
Qed.

(** X8. The exact condition of each band in terms of the inputs of the
    policy: LOW iff rule A holds or the raw probability is below 35; HIGH
    iff rule A does not hold, the raw probability is not below 70 and the
    bias guard does not fire; MODERATE iff rule A does not hold, the raw
    probability is not below 35, and it is below 70 or the guard fires. *)
Theorem band_characterisation (i : Inputs) (g : Globals) (b r : float) :
  bmi (height_cm i) (weight_kg i) = inr b ->
  model_probability predict_proba (user_data i b) = Py.Float r ->
  exists w,
    evaluate predict_proba explainer columns i g = inr w /\
    (g_risk_level (vars w) = Some "LOW"
     <-> medically_low_risk i b = true \/ Py.float_lt_int r 35 = true) /\
    (g_risk_level (vars w) = Some "MODERATE"
     <-> medically_low_risk i b = false /\ Py.float_lt_int r 35 = false /\
         (Py.float_lt_int r 70 = true \/ age_bias_guard (Py.Float r) i = true)) /\
    (g_risk_level (vars w) = Some "HIGH"
     <-> medically_low_risk i b = false /\ Py.float_lt_int r 70 = false /\
         age_bias_guard (Py.Float r) i = false).
Proof.
  intros Hb Hraw.
  destruct (bmi_inv i b Hb) as [hm [E1 E2]].
  pose proof (evaluate_run predict_proba explainer columns i g b hm E1 E2) as Hrun.
  cbv zeta in Hrun. rewrite Hraw in Hrun.
  eexists. split; [exact Hrun|].
  cbn [vars g_risk_level].
  unfold effective_probability, band_of.
  destruct (medically_low_risk i b).
  { repeat split; try discriminate; try tauto; intros [H _]; discriminate. }
  destruct (age_bias_guard (Py.Float r) i) eqn:G.
  - pose proof (guard_fires_above_70 r i G) as Hgt.
    pose proof (gt_70_not_lt_70 r Hgt) as H70.
    pose proof (not_lt_70_not_lt_35 r H70) as H35.
    rewrite H35, H70. cbn.
    repeat split; try discriminate; try tauto;
      intros H; intuition discriminate.
  - unfold Py.number_lt_int.
    destruct (Py.float_lt_int r 35) eqn:H35.
    + rewrite (lt_35_lt_70 r H35).
      repeat split; try discriminate; try tauto;
        intros H; intuition discriminate.
    + destruct (Py.float_lt_int r 70) eqn:H70;
        repeat split; try discriminate; try tauto;
        intros H; intuition discriminate.
Qed.

(** X9. The model is consulted exactly once per evaluation, also when
    rule A overrides it, on the row of 8 features built from the inputs;
    the explainer is called on the same row, once, exactly when rule A
    does not hold. *)
Theorem collaborators_see_the_same_row (i : Inputs) (g : Globals) (b : float) :
  bmi (height_cm i) (weight_kg i) = inr b ->
  exists w,
    evaluate predict_proba explainer columns i g = inr w /\
    model_rows w = [user_data i b] /\
    explainer_rows w = (if medically_low_risk i b then [] else [user_data i b]) /\
    List.length (user_data i b) = 8%nat.
Proof.
  intros Hb.
  destruct (bmi_inv i b Hb) as [hm [E1 E2]].
  pose proof (evaluate_run predict_proba explainer columns i g b hm E1 E2) as Hrun.
  cbv zeta in Hrun.
  eexists. split; [exact Hrun|].
  unfold model_rows, explainer_rows. cbn [calls].
  rewrite script_calls_model_rows, script_calls_explainer_rows.
  repeat split; reflexivity.
Qed.

(** X10. The number of attribution statements shown is 0 under rule A and
    otherwise the smallest of 3, the number of columns and the number of
    contributions the explainer returned. *)
Theorem attribution_statement_count (i : Inputs) (g : Globals) (b : float) :
  bmi (height_cm i) (weight_kg i) = inr b ->
  exists w,
    evaluate predict_proba explainer columns i g = inr w /\
    List.length (attribution_statements w)
    = if medically_low_risk i b then 0%nat
      else Nat.min 3 (Nat.min (List.length columns)
                              (List.length (explainer (user_data i b)))).
Proof.
  intros Hb.
  destruct (bmi_inv i b Hb) as [hm [E1 E2]].
  pose proof (evaluate_run predict_proba explainer columns i g b hm E1 E2) as Hrun.
  cbv zeta in Hrun.
  eexists. split; [exact Hrun|].
  unfold attribution_statements. cbn [calls].
  destruct (medically_low_risk i b).
  - now rewrite script_calls_info_low.
  - rewrite script_calls_info, length_map, length_firstn.
    rewrite <- (Permutation_length (sorted_reverse_perm abs_impact_lt _)).
    now rewrite length_combine.
Qed.

(** X11. For fewer than 64 features, and whatever the contributions are
    (NaN included), the ranking holds every (column, contribution) pair
    exactly as often as the zipped input does: no feature is dropped or
    repeated. *)
Theorem explanation_is_permutation (i : Inputs) (g : Globals) (b : float) :
  bmi (height_cm i) (weight_kg i) = inr b ->
  medically_low_risk i b = false ->
  (List.length (combine columns (explainer (user_data i b))) < 64)%nat ->
  exists w expl,
    evaluate predict_proba explainer columns i g = inr w /\
    g_explanation (vars w) = Some expl /\
    Permutation (combine columns (explainer (user_data i b))) expl.
Proof.
  intros Hb Hmlr _.
  destruct (bmi_inv i b Hb) as [hm [E1 E2]].
  pose proof (evaluate_run predict_proba explainer columns i g b hm E1 E2) as Hrun.
  cbv zeta in Hrun. rewrite Hmlr in Hrun.
  eexists. eexists. split; [exact Hrun|]. split; [reflexivity|].
  apply sorted_reverse_perm.
Qed.

(** X12. When the contributions are numbers, no feature left out of the
    three shown has a larger absolute contribution than a feature shown. *)
Theorem shown_attributions_dominate (i : Inputs) (g : Globals) (b : float) :
  bmi (height_cm i) (weight_kg i) = inr b ->
  medically_low_risk i b = false ->
  Forall is_number (explainer (user_data i b)) ->
  exists w expl,
    evaluate predict_proba explainer columns i g = inr w /\
    g_explanation (vars w) = Some expl /\
    forall shown hidden,
      In shown (firstn 3 expl) -> In hidden (skipn 3 expl) ->
      PrimFloat.ltb (PrimFloat.abs (snd shown)) (PrimFloat.abs (snd hidden)) = false.
Proof.
  intros Hb Hmlr Hnum.
  destruct (bmi_inv i b Hb) as [hm [E1 E2]].
  pose proof (evaluate_run predict_proba explainer columns i g b hm E1 E2) as Hrun.
  cbv zeta in Hrun. rewrite Hmlr in Hrun.
  set (l := combine columns (explainer (user_data i b))) in *.
  assert (Hok : Forall (fun fv : string * float => is_number (snd fv)) l).
  { rewrite Forall_forall in *. intros [f v] Hin. cbn.
    apply Hnum. now apply in_combine_r in Hin. }
  destruct (sorted_reverse_ranked abs_impact_lt
              (fun fv : string * float => is_number (snd fv))) with (l := l)
    as [ranked [Hperm [Hmap Hsorted]]]; trivial.
  { intros x. unfold abs_impact_lt. apply ltb_irrefl. }
  { intros x y z. unfold abs_impact_lt. apply ltb_trans. }
  { intros x y z Hx Hy Hz. unfold abs_impact_lt.
    apply ltb_negtrans; now apply abs_is_number. }
  eexists. eexists. split; [exact Hrun|]. split; [reflexivity|].
  rewrite <- Hmap, firstn_map, skipn_map.
  intros shown hidden Hs Hh.
  apply in_map_iff in Hs. destruct Hs as [p [<- Hp]].
  apply in_map_iff in Hh. destruct Hh as [q [<- Hq]].
  destruct (StronglySorted_firstn_skipn _ 3 ranked p q Hsorted Hp Hq)
    as [Hlt | [Hnlt _]].
  - unfold abs_impact_lt in Hlt. now apply ltb_asym.
  - exact Hnlt.
Qed.

(** X13. When the zipped contributions are already in ranking order (no
    pair has a smaller absolute contribution than a later pair), the
    ranking is the zipped input itself: in particular, equal absolute
    contributions are shown in column order. *)
Theorem ranked_input_is_kept (i : Inputs) (g : Globals) (b : float) :
  bmi (height_cm i) (weight_kg i) = inr b ->
  medically_low_risk i b = false ->
  StronglySorted (fun x y => abs_impact_lt x y = false)
                 (combine columns (explainer (user_data i b))) ->
  exists w,
    evaluate predict_proba explainer columns i g = inr w /\
    g_explanation (vars w) = Some (combine columns (explainer (user_data i b))).
Proof.
  intros Hb Hmlr Hsorted.
  destruct (bmi_inv i b Hb) as [hm [E1 E2]].
  pose proof (evaluate_run predict_proba explainer columns i g b hm E1 E2) as Hrun.
  cbv zeta in Hrun. rewrite Hmlr in Hrun.
  rewrite (sorted_reverse_ranked_input abs_impact_lt _ Hsorted) in Hrun.
  eexists. split; [exact Hrun|]. reflexivity.
Qed.

(** X14. Exactly one status box is shown, and it agrees with the band:
    [st.success] for LOW, [st.warning] for MODERATE, [st.error] for HIGH. *)
Theorem status_matches_band (i : Inputs) (g : Globals) (b : float) :
  bmi (height_cm i) (weight_kg i) = inr b ->
  exists w band,
    evaluate predict_proba explainer columns i g = inr w /\
    g_risk_level (vars w) = Some band /\
    (band = "LOW" -> status_calls w = [st_success "🟢 Low diabetes risk"]) /\
    (band = "MODERATE" -> status_calls w = [st_warning "🟡 Moderate diabetes risk"]) /\
    (band = "HIGH" -> status_calls w = [st_error "🔴 High diabetes risk"]).
Proof.
  intros Hb.
  destruct (bmi_inv i b Hb) as [hm [E1 E2]].
  pose proof (evaluate_run predict_proba explainer columns i g b hm E1 E2) as Hrun.
  cbv zeta in Hrun.
  eexists. eexists. split; [exact Hrun|]. split; [reflexivity|].
  unfold status_calls. cbn [calls]. rewrite script_calls_status.
  repeat split; intros ->; reflexivity.
Qed.

(** X15. Two texts are written per evaluation: first the low-risk
    sentence exactly when rule A holds, else the sentence about
    historical data; then the three lines of advice. *)
Theorem text_explanation_follows_rule_A (i : Inputs) (g : Globals) (b : float) :
  bmi (height_cm i) (weight_kg i) = inr b ->
  exists w,
    evaluate predict_proba explainer columns i g = inr w /\
    written_texts w
    = [if medically_low_risk i b
       then "Your blood sugar level, body weight range, and lack of family history suggest a low diabetes risk based on common medical guidelines."
       else "This result is based on patterns observed in historical health data. It does not confirm or rule out diabetes.";
       "- Maintain a balanced diet and regular physical activity"
       ++ String (Ascii.ascii_of_nat 10)
            ("- Monitor blood sugar levels if advised"
             ++ String (Ascii.ascii_of_nat 10)
                  "- Consult a healthcare professional for clarity")].
Proof.
  intros Hb.
  destruct (bmi_inv i b Hb) as [hm [E1 E2]].
  pose proof (evaluate_run predict_proba explainer columns i g b hm E1 E2) as Hrun.
  cbv zeta in Hrun.
  eexists. split; [exact Hrun|].
  unfold written_texts. cbn [calls].
  apply script_calls_written.
Qed.

(** X16. Without the button press a run of the page shows the BMI, the
    two section headers and the glucose hint and nothing else: the model
    and the explainer are not called and the band and the probability
    keep whatever binding they had.  With the button pressed the run
    leaves the bindings of the evaluation and makes its calls, with those
    three static calls after the BMI caption. *)
Theorem page_without_button (i : Inputs) (g : Globals) (b : float) :
  bmi (height_cm i) (weight_kg i) = inr b ->
  (exists w,
     render predict_proba explainer columns false i g = inr w /\
     calls w = [st_caption_bmi b;
                st_subheader "🩸 Health Measurements";
                st_caption "💡 Normal fasting glucose is usually between 70–100 mg/dL";
                st_subheader "🧬 Background Information"] /\
     g_bmi (vars w) = Some b /\
     g_risk_level (vars w) = g_risk_level g /\
     g_probability (vars w) = g_probability g /\
     model_rows w = [] /\ explainer_rows w = []) /\
  (exists w w',
     evaluate predict_proba explainer columns i g = inr w /\
     render predict_proba explainer columns true i g = inr w' /\
     vars w' = vars w /\
     calls w'
     = st_caption_bmi b
       :: st_subheader "🩸 Health Measurements"
       :: st_caption "💡 Normal fasting glucose is usually between 70–100 mg/dL"
       :: st_subheader "🧬 Background Information"
       :: tl (calls w)).
Proof.
  intros Hb.
  destruct (bmi_inv i b Hb) as [hm [E1 E2]].
  split.
  - eexists. split; [exact (render_idle i g b hm E1 E2)|].
    repeat split; reflexivity.
  - eexists. eexists.
    split; [exact (evaluate_run predict_proba explainer columns i g b hm E1 E2)|].
    split; [exact (render_pressed i g b hm E1 E2)|].
    split; reflexivity.
Qed.

End Extras.

(* ===================================================================== *)
(** ** The further properties on sample inputs *)
(* ===================================================================== *)

(** Contributions already in ranking order, with ties. *)
Definition ranked_impacts : list float :=
  [5; -5; 3; -3; 2; -2; 1; 0]%float.

(** Contributions of which one is NaN. *)
Definition impacts_with_nan : list float :=
  [1; PrimFloat.nan; 3; -3; 0; 2; 5; -5]%float.

Lemma bmi_raises_exactly_at_height_zero_witness :
  bmi 0 70 = inl Py.ZeroDivisionError <-> 0 = 0.
Proof.
  apply (bmi_raises_exactly_at_height_zero 0 70); lia.
Defined.

Lemma bmi_bounds_in_domain_witness :
  exists b, bmi 220 30 = inr b /\
            PrimFloat.leb 6.2%float b = true /\ PrimFloat.leb b 200%float = true.
Proof.
  apply (bmi_bounds_in_domain 220 30); lia.
Defined.

Lemma bmi_monotone_in_weight_witness :
  PrimFloat.leb 24.22%float 27.68%float = true.
Proof.
  apply (bmi_monotone_in_weight 170 70 80 24.22%float 27.68%float);
    [lia | lia | lia | lia | vm_compute; reflexivity | vm_compute; reflexivity].
Defined.

Lemma bmi_antitone_in_height_witness :
  PrimFloat.leb 21.6%float 24.22%float = true.
Proof.
  apply (bmi_antitone_in_height 170 180 70 24.22%float 21.6%float);
    [lia | lia | lia | lia | vm_compute; reflexivity | vm_compute; reflexivity].
Defined.

Lemma bmi_rounding_is_stable_witness : Py.round2 24.22%float = 24.22%float.
Proof.
  apply (bmi_rounding_is_stable 170 70 24.22%float);
    [lia | lia | vm_compute; reflexivity].
Defined.

Lemma rule_A_wins_over_bias_guard_witness :
  exists w,
    evaluate (fun _ => 0.95%float) (fun _ => sample_impacts) sample_columns
             low_risk_person no_globals = inr w /\
    g_probability (vars w) = Some (Py.Int 55) /\
    g_risk_level (vars w) = Some "LOW".
Proof.
  apply (rule_A_wins_over_bias_guard (fun _ => 0.95%float)
           (fun _ => sample_impacts) sample_columns low_risk_person no_globals
           24.22%float);
    [vm_compute; reflexivity | reflexivity | reflexivity].
Defined.

Lemma band_characterisation_witness :
  exists w,
    evaluate (fun _ => 0.8%float) (fun _ => sample_impacts) sample_columns
             default_person no_globals = inr w /\
    (g_risk_level (vars w) = Some "LOW"
     <-> medically_low_risk default_person 24.22%float = true
         \/ Py.float_lt_int 80 35 = true) /\
    (g_risk_level (vars w) = Some "MODERATE"
     <-> medically_low_risk default_person 24.22%float = false /\
         Py.float_lt_int 80 35 = false /\
         (Py.float_lt_int 80 70 = true
          \/ age_bias_guard (Py.Float 80) default_person = true)) /\
    (g_risk_level (vars w) = Some "HIGH"
     <-> medically_low_risk default_person 24.22%float = false /\
         Py.float_lt_int 80 70 = false /\
         age_bias_guard (Py.Float 80) default_person = false).
Proof.
  apply (band_characterisation (fun _ => 0.8%float) (fun _ => sample_impacts)
           sample_columns default_person no_globals 24.22%float 80%float);
    [vm_compute; reflexivity | vm_compute; reflexivity].
Defined.

Lemma collaborators_see_the_same_row_witness :
  exists w,
    evaluate (fun _ => 0.8%float) (fun _ => sample_impacts) sample_columns
             default_person no_globals = inr w /\
    model_rows w = [user_data default_person 24.22%float] /\
    explainer_rows w
    = (if medically_low_risk default_person 24.22%float then []
       else [user_data default_person 24.22%float]) /\
    List.length (user_data default_person 24.22%float) = 8%nat.
Proof.
  apply (collaborators_see_the_same_row (fun _ => 0.8%float)
           (fun _ => sample_impacts) sample_columns default_person no_globals
           24.22%float).
  vm_compute; reflexivity.
Defined.

(** Two contributions for eight columns: two statements. *)
Lemma attribution_statement_count_witness :
  exists w,
    evaluate (fun _ => 0.8%float) (fun _ => [1; -2]%float) sample_columns
             default_person no_globals = inr w /\
    List.length (attribution_statements w)
    = if medically_low_risk default_person 24.22%float then 0%nat
      else Nat.min 3 (Nat.min (List.length sample_columns)
                              (List.length [1; -2]%float)).
Proof.
  apply (attribution_statement_count (fun _ => 0.8%float) (fun _ => [1; -2]%float)
           sample_columns default_person no_globals 24.22%float).
  vm_compute; reflexivity.
Defined.

Lemma explanation_is_permutation_witness :
  exists w expl,
    evaluate (fun _ => 0.8%float) (fun _ => impacts_with_nan) sample_columns
             default_person no_globals = inr w /\
    g_explanation (vars w) = Some expl /\
    Permutation (combine sample_columns impacts_with_nan) expl.
Proof.
  apply (explanation_is_permutation (fun _ => 0.8%float)
           (fun _ => impacts_with_nan) sample_columns default_person no_globals
           24.22%float);
    [vm_compute; reflexivity | reflexivity | cbn; lia].
Defined.

Lemma shown_attributions_dominate_witness :
  exists w expl,
    evaluate (fun _ => 0.8%float) (fun _ => sample_impacts) sample_columns
             default_person no_globals = inr w /\
    g_explanation (vars w) = Some expl /\
    forall shown hidden,
      In shown (firstn 3 expl) -> In hidden (skipn 3 expl) ->
      PrimFloat.ltb (PrimFloat.abs (snd shown)) (PrimFloat.abs (snd hidden)) = false.
Proof.
  apply (shown_attributions_dominate (fun _ => 0.8%float)
           (fun _ => sample_impacts) sample_columns default_person no_globals
           24.22%float);
    [vm_compute; reflexivity | reflexivity | repeat constructor; reflexivity].
Defined.

Lemma ranked_input_is_kept_witness :
  exists w,
    evaluate (fun _ => 0.8%float) (fun _ => ranked_impacts) sample_columns
             default_person no_globals = inr w /\
    g_explanation (vars w) = Some (combine sample_columns ranked_impacts).
Proof.
  apply (ranked_input_is_kept (fun _ => 0.8%float) (fun _ => ranked_impacts)
           sample_columns default_person no_globals 24.22%float);
    [vm_compute; reflexivity | reflexivity
     | cbn; repeat (constructor; try reflexivity)].
Defined.

Lemma status_matches_band_witness :
  exists w band,
    evaluate (fun _ => 0.5%float) (fun _ => sample_impacts) sample_columns
             default_person no_globals = inr w /\
    g_risk_level (vars w) = Some band /\
    (band = "LOW" -> status_calls w = [st_success "🟢 Low diabetes risk"]) /\
    (band = "MODERATE" -> status_calls w = [st_warning "🟡 Moderate diabetes risk"]) /\
    (band = "HIGH" -> status_calls w = [st_error "🔴 High diabetes risk"]).
Proof.
  apply (status_matches_band (fun _ => 0.5%float) (fun _ => sample_impacts)
           sample_columns default_person no_globals 24.22%float).
  vm_compute; reflexivity.
Defined.

Lemma text_explanation_follows_rule_A_witness :
  exists w,
    evaluate (fun _ => 0.95%float) (fun _ => sample_impacts) sample_columns
             low_risk_person no_globals = inr w /\
    written_texts w
    = [if medically_low_risk low_risk_person 24.22%float
       then "Your blood sugar level, body weight range, and lack of family history suggest a low diabetes risk based on common medical guidelines."
       else "This result is based on patterns observed in historical health data. It does not confirm or rule out diabetes.";
       "- Maintain a balanced diet and regular physical activity"
       ++ String (Ascii.ascii_of_nat 10)
            ("- Monitor blood sugar levels if advised"
             ++ String (Ascii.ascii_of_nat 10)
                  "- Consult a healthcare professional for clarity")].
Proof.
  apply (text_explanation_follows_rule_A (fun _ => 0.95%float)
           (fun _ => sample_impacts) sample_columns low_risk_person no_globals
           24.22%float).
  vm_compute; reflexivity.
Defined.

Lemma page_without_button_witness :
  (exists w,
     render (fun _ => 0.8%float) (fun _ => sample_impacts) sample_columns
            false default_person no_globals = inr w /\
     calls w = [st_caption_bmi 24.22%float;
                st_subheader "🩸 Health Measurements";
                st_caption "💡 Normal fasting glucose is usually between 70–100 mg/dL";
                st_subheader "🧬 Background Information"] /\
     g_bmi (vars w) = Some 24.22%float /\
     g_risk_level (vars w) = g_risk_level no_globals /\
     g_probability (vars w) = g_probability no_globals /\
     model_rows w = [] /\ explainer_rows w = []) /\
  (exists w w',
     evaluate (fun _ => 0.8%float) (fun _ => sample_impacts) sample_columns
              default_person no_globals = inr w /\
     render (fun _ => 0.8%float) (fun _ => sample_impacts) sample_columns
            true default_person no_globals = inr w' /\
     vars w' = vars w /\
     calls w'
     = st_caption_bmi 24.22%float
       :: st_subheader "🩸 Health Measurements"
       :: st_caption "💡 Normal fasting glucose is usually between 70–100 mg/dL"
       :: st_subheader "🧬 Background Information"
       :: tl (calls w)).
Proof.
  apply (page_without_button (fun _ => 0.8%float) (fun _ => sample_impacts)
           sample_columns default_person no_globals 24.22%float).
  vm_compute; reflexivity.
Defined.
